(** * cloudfront.py: a shallow embedding of the Ansible CloudFront module

    The module reads its parameters, picks SDK methods from per-function
    dispatch tables keyed by the [type] parameter, compares the supplied
    policy with the configurations the provider lists, and creates,
    updates or removes a resource, optionally polling its status.

    The embedding keeps the shape of the script:
    - Python values that come out of [json.loads] and out of the SDK are
      the inductive [value] (None, bool, int, str, list, dict);
    - the SDK client, the file system, the JSON parser and Python 2's
      built-in [cmp] are fields of a [Host] record the program is
      parametrised by;
    - every function of the script is a computation in the monad [M],
      which reads the history of SDK calls and sleeps performed so far,
      appends the new ones, and ends in [Return], in [Fail] (the effect
      of [module.fail_json], which exits the process) or in [Raise] (a
      Python exception nobody catches). *)

From Stdlib Require Import List String Ascii ZArith Bool Lia.
Import ListNotations.
Local Open Scope string_scope.
Local Open Scope Z_scope.
Local Open Scope list_scope.
Set Warnings "-register-all".

(** ** Python values *)

Inductive value : Type :=
| VNone
| VBool (b : bool)
| VInt (z : Z)
| VStr (s : string)
| VList (l : list value)
| VDict (d : list (string * value)).

Inductive exn : Type :=
| KeyError (key : string)
| TypeError
| UnboundLocalError (name : string)
| ClientError (msg : string).

(** [d.get(k)] on the association list of a dict. *)
Fixpoint dict_get (k : string) (d : list (string * value)) : option value :=
  match d with
  | [] => None
  | (k', v) :: d' => if String.eqb k k' then Some v else dict_get k d'
  end.

(** [d[k] = v] on a dict: the binding is replaced in place, or added. *)
Fixpoint dict_set (k : string) (v : value) (d : list (string * value))
  : list (string * value) :=
  match d with
  | [] => [(k, v)]
  | (k', v') :: d' =>
      if String.eqb k k' then (k, v) :: d' else (k', v') :: dict_set k v d'
  end.

(** Numbers as Python compares them: [True == 1] and [False == 0]. *)
Definition num_of (v : value) : option Z :=
  match v with
  | VBool b => Some (if b then 1 else 0)
  | VInt z => Some z
  | _ => None
  end.

(** The [==] operator on the values above. *)
Fixpoint py_eq (a b : value) {struct a} : bool :=
  match a, b with
  | VNone, VNone => true
  | VBool _, _ | VInt _, _ =>
      match num_of a, num_of b with
      | Some x, Some y => Z.eqb x y
      | _, _ => false
      end
  | VStr s, VStr t => String.eqb s t
  | VList xs, VList ys =>
      (fix eq_list (xs ys : list value) {struct xs} : bool :=
         match xs, ys with
         | [], [] => true
         | x :: xs', y :: ys' => py_eq x y && eq_list xs' ys'
         | _, _ => false
         end) xs ys
  | VDict d, VDict e =>
      (fix sub (d : list (string * value)) {struct d} : bool :=
         match d with
         | [] => true
         | (k, v) :: d' =>
             match dict_get k e with
             | Some w => py_eq v w && sub d'
             | None => false
             end
         end) d
      && forallb (fun kv => match dict_get (fst kv) d with
                            | Some _ => true
                            | None => false
                            end) e
  | _, _ => false
  end.

(** Truth value of an object, as [if x:] and [not x] test it. *)
Definition truthy (v : value) : bool :=
  match v with
  | VNone => false
  | VBool b => b
  | VInt z => negb (Z.eqb z 0)
  | VStr s => negb (String.eqb s "")
  | VList l => match l with [] => false | _ => true end
  | VDict d => match d with [] => false | _ => true end
  end.

(** [s in t] on strings: substring test. *)
Definition substring_of (s t : string) : bool :=
  match String.index 0 s t with
  | Some _ => true
  | None => false
  end.

(** [v[k]] with a string key: only a dict can be indexed that way. *)
Definition getitem (v : value) (k : string) : exn + value :=
  match v with
  | VDict d =>
      match dict_get k d with
      | Some x => inr x
      | None => inl (KeyError k)
      end
  | _ => inl TypeError
  end.

(** [v[k] = x] with a string key. *)
Definition setitem (v : value) (k : string) (x : value) : exn + value :=
  match v with
  | VDict d => inr (VDict (dict_set k x d))
  | _ => inl TypeError
  end.

(** [k in v] with a string [k]: key of a dict, element of a list,
    substring of a string, and a TypeError on anything else. *)
Definition contains (k : string) (v : value) : exn + bool :=
  match v with
  | VDict d => inr (match dict_get k d with Some _ => true | None => false end)
  | VList l => inr (existsb (py_eq (VStr k)) l)
  | VStr s => inr (substring_of k s)
  | _ => inl TypeError
  end.

Fixpoint chars (s : string) : list value :=
  match s with
  | EmptyString => []
  | String c s' => VStr (String c EmptyString) :: chars s'
  end.

(** The elements a [for x in v] loop visits. *)
Definition iterate (v : value) : exn + list value :=
  match v with
  | VList l => inr l
  | VDict d => inr (map (fun kv => VStr (fst kv)) d)
  | VStr s => inr (chars s)
  | _ => inl TypeError
  end.

(** [date_handler] rewrites the objects that have an [isoformat] method;
    none of the constructors of [value] is one. *)
Definition date_handler (obj : value) : value := obj.

(** [json.loads(json.dumps(x, default=date_handler))] leaves the values
    above as they are. *)
Definition json_roundtrip (v : value) : value := date_handler v.

(** ** Parameters of the module (the [argument_spec] of [main]) *)

Inductive resource : Type :=
| distribution
| origin_access_id
| invalidation
| streaming.

Inductive desired : Type := present | absent.

Record params : Type := {
  type : resource;
  policy : option string;
  resource_id : option string;
  state : desired;
  wait_for_deployed : bool
}.

Definition type_name (t : resource) : string :=
  match t with
  | distribution => "distribution"
  | origin_access_id => "origin_access_id"
  | invalidation => "invalidation"
  | streaming => "streaming"
  end.

Definition is_invalidation (t : resource) : bool :=
  match t with invalidation => true | _ => false end.

(** [module.params.get(name)] read as a truth value. *)
Definition supplied (o : option string) : bool :=
  match o with
  | Some s => negb (String.eqb s "")
  | None => false
  end.

(** [module.params.get(name)] passed on as a Python object. *)
Definition param_value (o : option string) : value :=
  match o with
  | Some s => VStr s
  | None => VNone
  end.

(** ** The SDK client and the rest of the host *)

Inductive api_method : Type :=
| list_distributions
| get_distribution_config
| get_distribution
| create_distribution
| update_distribution
| delete_distribution
| list_cloud_front_origin_access_identities
| get_cloud_front_origin_access_identity_config
| get_cloud_front_origin_access_identity
| create_cloud_front_origin_access_identity
| update_cloud_front_origin_access_identity
| delete_cloud_front_origin_access_identity
| list_invalidations
| get_invalidation
| create_invalidation
| list_streaming_distributions
| get_streaming_distribution_config
| get_streaming_distribution
| create_streaming_distribution
| update_streaming_distribution
| delete_streaming_distribution.

Definition kwargs : Type := list (string * value).

Inductive event : Type :=
| EvCall (m : api_method) (args : kwargs)
| EvSleep (secs : Z).

Definition history : Type := list event.

(** What [open(path)] followed by reading the file comes to. *)
Inductive file_outcome : Type :=
| FileContent (text : string)
| FileIOError
| FileOtherError (msg : string).

Record Host : Type := {
  (** the boto3 CloudFront client: its answer may depend on everything
      the module did before, and it may raise *)
  client : history -> api_method -> kwargs -> exn + value;
  open_read : string -> file_outcome;
  (** [json.loads] / [json.load]: the text of the ValueError, or the value *)
  json_loads : string -> string + value;
  (** Python 2's built-in three-way comparison *)
  cmp : value -> value -> Z;
  HAS_BOTO3 : bool;
  (** [get_aws_connection_info] and [boto3_conn]: the text of the exception
      they raise, if any *)
  boto3_conn : option string
}.

(** ** The monad of the script *)

Inductive outcome (A : Type) : Type :=
| Return (a : A)
| Fail (msg : string)
| Raise (e : exn).

Arguments Return {A} a.
Arguments Fail {A} msg.
Arguments Raise {A} e.

Definition M (A : Type) : Type := history -> outcome A * list event.

Definition ret {A} (a : A) : M A := fun _ => (Return a, []).

Definition bind {A B} (m : M A) (f : A -> M B) : M B :=
  fun h =>
    match m h with
    | (Return a, e1) => let (o, e2) := f a (h ++ e1) in (o, e1 ++ e2)
    | (Fail msg, e1) => (Fail msg, e1)
    | (Raise e, e1) => (Raise e, e1)
    end.

Definition fail_json {A} (msg : string) : M A := fun _ => (Fail msg, []).

Definition raise {A} (e : exn) : M A := fun _ => (Raise e, []).

Definition lift {A} (r : exn + A) : M A :=
  match r with
  | inl e => raise e
  | inr a => ret a
  end.

Definition sleep (secs : Z) : M unit := fun _ => (Return tt, [EvSleep secs]).

Declare Scope script_scope.
Delimit Scope script_scope with script.
Notation "x <- m ;; k" := (bind m (fun x => k))
  (at level 61, m at next level, right associativity) : script_scope.
Notation "' pat <- m ;; k" := (bind m (fun x => match x with pat => k end))
  (at level 61, pat pattern, m at next level, right associativity) : script_scope.
Notation "m ;; k" := (bind m (fun _ => k))
  (at level 61, right associativity) : script_scope.
Local Open Scope script_scope.

(** A [for] loop that collects one result per element. *)
Fixpoint for_each {A B} (f : A -> M B) (xs : list A) : M (list B) :=
  match xs with
  | [] => ret []
  | x :: xs' => y <- f x ;; ys <- for_each f xs' ;; ret (y :: ys)
  end.

(** A [for] loop that threads the local variables it assigns. *)
Fixpoint for_fold {A S} (f : S -> A -> M S) (s : S) (xs : list A) : M S :=
  match xs with
  | [] => ret s
  | x :: xs' => s' <- f s x ;; for_fold f s' xs'
  end.

(** ** The script *)

(** The [temp_object] dicts the listing functions build: their keys are
    fixed by the code, so they are a record. *)
Record temp_object : Type := {
  Config : value;
  ETag : value;
  Id : value;
  DomainName : option value
}.

Section Script.

Variable host : Host.

(** A call of a client method with keyword arguments. The call is recorded
    whether it answers or raises. *)
Definition call (m : api_method) (args : kwargs) : M value :=
  fun h =>
    match client host h m args with
    | inr v => (Return v, [EvCall m args])
    | inl e => (Raise e, [EvCall m args])
    end.

Definition get_existing_distributions (module : params) : M (list temp_object) :=
  distributions <- call list_distributions [] ;;
  dist_list <- lift (getitem distributions "DistributionList") ;;
  has_items <- lift (contains "Items" dist_list) ;;
  if has_items then
    dist_list <- lift (getitem distributions "DistributionList") ;;
    items <- lift (getitem dist_list "Items") ;;
    dists <- lift (iterate items) ;;
    for_each (fun dist =>
      dist_id <- lift (getitem dist "Id") ;;
      config <- call get_distribution_config [("Id", dist_id)] ;;
      dist_config <- lift (getitem config "DistributionConfig") ;;
      etag <- lift (getitem config "ETag") ;;
      dist_id <- lift (getitem dist "Id") ;;
      domain_name <- lift (getitem dist "DomainName") ;;
      ret {| Config := dist_config; ETag := etag; Id := dist_id;
             DomainName := Some domain_name |}) dists
  else ret [].

Definition get_existing_origin_access_id (module : params) : M (list temp_object) :=
  origin_access_ids <- call list_cloud_front_origin_access_identities [] ;;
  id_list <- lift (getitem origin_access_ids "CloudFrontOriginAccessIdentityList") ;;
  has_items <- lift (contains "Items" id_list) ;;
  if has_items then
    id_list <- lift (getitem origin_access_ids "CloudFrontOriginAccessIdentityList") ;;
    items <- lift (getitem id_list "Items") ;;
    origins <- lift (iterate items) ;;
    for_each (fun origin =>
      origin_id <- lift (getitem origin "Id") ;;
      config <- call get_cloud_front_origin_access_identity_config [("Id", origin_id)] ;;
      id_config <- lift (getitem config "CloudFrontOriginAccessIdentityConfig") ;;
      etag <- lift (getitem config "ETag") ;;
      origin_id <- lift (getitem origin "Id") ;;
      ret {| Config := id_config; ETag := etag; Id := origin_id;
             DomainName := None |}) origins
  else ret [].

Definition distribution_id_msg : string :=
  "distribution_id is required for invalidations".

Definition get_existing_invalidations (module : params) : M (list temp_object) :=
  let distribution_id := resource_id module in
  (if supplied distribution_id then ret tt
   else fail_json distribution_id_msg) ;;
  invalidations <-
    call list_invalidations [("DistributionId", param_value distribution_id)] ;;
  inv_list <- lift (getitem invalidations "InvalidationList") ;;
  has_items <- lift (contains "Items" inv_list) ;;
  if has_items then
    inv_list <- lift (getitem invalidations "InvalidationList") ;;
    items <- lift (getitem inv_list "Items") ;;
    invs <- lift (iterate items) ;;
    for_each (fun inv =>
      inv_id <- lift (getitem inv "Id") ;;
      config <- call get_invalidation
                  [("DistributionId", param_value distribution_id); ("Id", inv_id)] ;;
      inv_obj <- lift (getitem config "Invalidation") ;;
      batch <- lift (getitem inv_obj "InvalidationBatch") ;;
      inv_id <- lift (getitem inv "Id") ;;
      ret {| Config := batch; ETag := VStr ""; Id := inv_id;
             DomainName := None |}) invs
  else ret [].

Definition get_existing_streaming_distributions (module : params)
  : M (list temp_object) :=
  distributions <- call list_streaming_distributions [] ;;
  dist_list <- lift (getitem distributions "StreamingDistributionList") ;;
  items <- lift (getitem dist_list "Items") ;;
  dists <- lift (iterate items) ;;
  for_each (fun dist =>
    dist_id <- lift (getitem dist "Id") ;;
    config <- call get_streaming_distribution_config [("Id", dist_id)] ;;
    dist_config <- lift (getitem config "StreamingDistributionConfig") ;;
    etag <- lift (getitem config "ETag") ;;
    dist_id <- lift (getitem dist "Id") ;;
    domain_name <- lift (getitem dist "DomainName") ;;
    ret {| Config := dist_config; ETag := etag; Id := dist_id;
           DomainName := Some domain_name |}) dists.

(** The [invocations] table of [wait_for_deployed_status]: method and
    result key. *)
Definition status_invocations (t : resource) : api_method * string :=
  match t with
  | distribution => (get_distribution, "Distribution")
  | origin_access_id =>
      (get_cloud_front_origin_access_identity, "CloudFrontOriginAccessIdentity")
  | invalidation => (get_invalidation, "Invalidation")
  | streaming => (get_streaming_distribution, "StreamingDistribution")
  end.

Definition polling_increment_secs : Z := 30.

Definition default_max_retries : nat := 30.

(** A status that ends the polling. *)
Definition deployed (current_status : value) : bool :=
  py_eq current_status (VStr "Deployed") || py_eq current_status (VStr "Completed").

(** One poll of the loop: the resource is fetched and its Status read. *)
Definition poll_status (module : params) (args : kwargs) : M value :=
  let (method, result_key) := status_invocations (type module) in
  response <- call method args ;;
  result <- lift (getitem response result_key) ;;
  lift (getitem result "Status").

(** The [for x in range(0, max_retries)] loop: [status_achieved] is False
    when the range is exhausted. *)
Fixpoint poll_loop (module : params) (args : kwargs) (retries : nat) : M bool :=
  match retries with
  | O => ret false
  | S retries' =>
      current_status <- poll_status module args ;;
      if deployed current_status then ret true
      else sleep polling_increment_secs ;; poll_loop module args retries'
  end.

Definition wait_for_deployed_status (module : params) (max_retries : nat)
  (args : kwargs) : M bool :=
  poll_loop module args max_retries.

Definition timeout_msg : string :=
  "Timed out waiting for the resource to finish deploying, please check the AWS console for the latest status.".

(** The [invocations] table of [return_resource_details]. *)
Definition details_invocations (t : resource) : api_method :=
  match t with
  | distribution => get_distribution
  | origin_access_id => get_cloud_front_origin_access_identity
  | invalidation => get_invalidation
  | streaming => get_streaming_distribution
  end.

(** The DistributionId entry that [return_resource_details] and [creation]
    add to their keyword arguments for invalidations only. *)
Definition distribution_arg (module : params) : kwargs :=
  if is_invalidation (type module)
  then [("DistributionId", param_value (resource_id module))] else [].

(** The [params] dict of [return_resource_details]. *)
Definition details_args (module : params) (temp_results : temp_object) : kwargs :=
  distribution_arg module ++ [("Id", Id temp_results)].

Definition return_resource_details (module : params) (temp_results : temp_object)
  : M value :=
  resource_details <-
    call (details_invocations (type module)) (details_args module temp_results) ;;
  ret (json_roundtrip resource_details).

(** The [invocations] table of [creation]: method, config parameter and
    result key. *)
Definition creation_invocations (t : resource) : api_method * string * string :=
  match t with
  | distribution =>
      (create_distribution, "DistributionConfig", "Distribution")
  | origin_access_id =>
      (create_cloud_front_origin_access_identity,
       "CloudFrontOriginAccessIdentityConfig", "CloudFrontOriginAccessIdentity")
  | invalidation =>
      (create_invalidation, "InvalidationBatch", "Invalidation")
  | streaming =>
      (create_streaming_distribution, "StreamingDistributionConfig",
       "StreamingDistribution")
  end.

Definition creation (module : params) (policy : value) : M (bool * value) :=
  let '(method, config_param, result_key) := creation_invocations (type module) in
  response <- call method ((config_param, policy) :: distribution_arg module) ;;
  let result := json_roundtrip response in
  (if wait_for_deployed module then
     created <- lift (getitem result result_key) ;;
     created_id <- lift (getitem created "Id") ;;
     status_achieved <-
       wait_for_deployed_status module default_max_retries
         (distribution_arg module ++ [("Id", created_id)]) ;;
     if status_achieved then ret tt else fail_json timeout_msg
   else ret tt) ;;
  ret (true, result).

(** The [invocations] table of [update]: it has no entry for invalidations,
    and its streaming entry names the create method. *)
Definition update_invocations (t : resource) : option (api_method * string) :=
  match t with
  | distribution => Some (update_distribution, "DistributionConfig")
  | origin_access_id =>
      Some (update_cloud_front_origin_access_identity,
            "CloudFrontOriginAccessIdentityConfig")
  | invalidation => None
  | streaming => Some (create_streaming_distribution, "StreamingDistributionConfig")
  end.

Definition update (module : params) (policy : value) (resource_id etag : value)
  : M (bool * value) :=
  match update_invocations (type module) with
  | None => raise (KeyError (type_name (type module)))
  | Some (method, config_param) =>
      response <- call method
                    [(config_param, policy); ("Id", resource_id); ("IfMatch", etag)] ;;
      let result := json_roundtrip response in
      (if wait_for_deployed module then
         status_achieved <-
           wait_for_deployed_status module default_max_retries [("Id", resource_id)] ;;
         if status_achieved then ret tt else fail_json timeout_msg
       else ret tt) ;;
      ret (true, result)
  end.

(** The [invocations] table of [disable_distribution]: method, config
    parameter and distribution key; only two types have an entry. *)
Definition disable_invocations (t : resource)
  : option (api_method * string * string) :=
  match t with
  | distribution => Some (get_distribution, "DistributionConfig", "Distribution")
  | streaming =>
      Some (get_streaming_distribution, "StreamingDistributionConfig",
            "StreamingDistribution")
  | _ => None
  end.

Definition disable_timeout_msg : string :=
  "Timed out disabling the resource, please try again".

Definition disable_distribution (module : params) : M (bool * value) :=
  match disable_invocations (type module) with
  | None => raise (KeyError (type_name (type module)))
  | Some (method, config_param, dist_key) =>
      let resource_id := param_value (resource_id module) in
      let args := [("Id", resource_id)] in
      get_result <- call method args ;;
      dist <- lift (getitem get_result dist_key) ;;
      config <- lift (getitem dist config_param) ;;
      enabled <- lift (getitem config "Enabled") ;;
      (if truthy enabled then
         new_policy <- lift (setitem config "Enabled" (VBool false)) ;;
         etag <- lift (getitem get_result "ETag") ;;
         update module new_policy resource_id etag ;;
         ret tt
       else ret tt) ;;
      status_achieved <- wait_for_deployed_status module default_max_retries args ;;
      if status_achieved then
        updated_result <- call get_distribution_config args ;;
        ret (status_achieved, updated_result)
      else fail_json disable_timeout_msg
  end.

(** The [invocations] table of [creation_setup]. *)
Definition get_config_method (t : resource) : params -> M (list temp_object) :=
  match t with
  | distribution => get_existing_distributions
  | origin_access_id => get_existing_origin_access_id
  | invalidation => get_existing_invalidations
  | streaming => get_existing_streaming_distributions
  end.

Definition caller_reference_msg : string :=
  "CallerReference is required in your policy".

Definition invalidation_update_msg : string :=
  "AWS does not support updating invalidation configs, please create a new invalidation with your new config and use a new caller reference id instead".

(** The first block of [creation_setup]: the policy parameter is tried as a
    path, then as JSON text; without the parameter [policy] stays None. *)
Definition load_policy (module : params) : M value :=
  match policy module with
  | Some text =>
      if supplied (Some text) then
        match open_read host text with
        | FileContent json_data =>
            match json_loads host json_data with
            | inr v => ret v
            | inl e => fail_json e
            end
        | FileIOError =>
            match json_loads host text with
            | inr v => ret v
            | inl e => fail_json e
            end
        | FileOtherError e => fail_json e
        end
      else ret VNone
  | None => ret VNone
  end.

(** The variables the loop over the existing resources assigns; [results]
    is unbound until one of the branches runs. *)
Record locals : Type := {
  changed : bool;
  results : option value;
  caller_reference_exists : bool
}.

(** The body of [for item in existing]. *)
Definition creation_step (module : params) (policy caller_reference : value)
  (vars : locals) (item : temp_object) : M locals :=
  item_reference <- lift (getitem (Config item) "CallerReference") ;;
  if py_eq caller_reference item_reference then
    if Z.eqb (cmp host policy (Config item)) 0 then
      details <- return_resource_details module item ;;
      ret {| changed := changed vars; results := Some details;
             caller_reference_exists := true |}
    else if is_invalidation (type module) then
      fail_json invalidation_update_msg
    else
      '(updated, result) <- update module policy (Id item) (ETag item) ;;
      ret {| changed := updated; results := Some result;
             caller_reference_exists := true |}
  else ret vars.

Definition creation_setup (module : params) : M (bool * value) :=
  policy <- load_policy module ;;
  has_reference <- lift (contains "CallerReference" policy) ;;
  caller_reference <-
    (if has_reference then lift (getitem policy "CallerReference")
     else fail_json caller_reference_msg) ;;
  existing <- get_config_method (type module) module ;;
  vars <- for_fold (creation_step module policy caller_reference)
            {| changed := false; results := None;
               caller_reference_exists := false |} existing ;;
  vars <-
    (if caller_reference_exists vars then ret vars
     else
       '(created, result) <- creation module policy ;;
       ret {| changed := created; results := Some result;
              caller_reference_exists := false |}) ;;
  match results vars with
  | Some result => ret (changed vars, result)
  | None => raise (UnboundLocalError "results")
  end.

(** The dict of [removal]: one delete method per removable type. *)
Definition removal_invocations (t : resource) : option api_method :=
  match t with
  | distribution => Some delete_distribution
  | origin_access_id => Some delete_cloud_front_origin_access_identity
  | streaming => Some delete_streaming_distribution
  | invalidation => None
  end.

Definition removal (module : params) (resource_id etag : value)
  : M (bool * value) :=
  match removal_invocations (type module) with
  | None => raise (KeyError (type_name (type module)))
  | Some method =>
      response <- call method [("Id", resource_id); ("IfMatch", etag)] ;;
      ret (true, json_roundtrip response)
  end.

(** The [invocations] table of [removal_setup]: method and config
    parameter. *)
Definition removal_setup_invocations (t : resource) : option (api_method * string) :=
  match t with
  | distribution => Some (get_distribution_config, "DistributionConfig")
  | origin_access_id =>
      Some (get_cloud_front_origin_access_identity_config,
            "CloudFrontOriginAccessIdentityConfig")
  | streaming =>
      Some (get_streaming_distribution_config, "StreamingDistributionConfig")
  | invalidation => None
  end.

Definition invalidation_removal_msg : string :=
  "Invalidations cannot be updated or removed".

Definition resource_id_msg : string :=
  "resource_id is requried for removing a resource".

Definition enabled_msg : string :=
  "Resource must be disabled before you can remove it from AWS".

Definition removal_setup (module : params) : M (bool * value) :=
  if is_invalidation (type module) then fail_json invalidation_removal_msg
  else if negb (supplied (resource_id module)) then fail_json resource_id_msg
  else
    match removal_setup_invocations (type module) with
    | None => raise (KeyError (type_name (type module)))
    | Some (method, config_param) =>
        config <-
          (if wait_for_deployed module then
             '(_, config) <- disable_distribution module ;; ret config
           else call method [("Id", param_value (resource_id module))]) ;;
        type_config <- lift (getitem config config_param) ;;
        enabled <- lift (getitem type_config "Enabled") ;;
        if negb (truthy enabled) then
          etag <- lift (getitem config "ETag") ;;
          removal module (param_value (resource_id module)) etag
        else fail_json enabled_msg
    end.

Definition boto3_msg : string := "json and botocore/boto3 is required.".

Definition connection_msg (e : string) : string :=
  ("Can't authorize connection - " ++ e)%string.

(** [main]: a [Return (changed, result)] is what [module.exit_json] hands
    to the host framework. *)
Definition main (module : params) : M (bool * value) :=
  if negb (HAS_BOTO3 host) then fail_json boto3_msg
  else
    match boto3_conn host with
    | Some e => fail_json (connection_msg e)
    | None =>
        match state module with
        | present => creation_setup module
        | absent => removal_setup module
        end
    end.

End Script.

Arguments wait_for_deployed_status : simpl never.

(** ** Vocabulary of the properties *)

(** The methods that create, change or delete a resource. *)
Definition mutating (m : api_method) : bool :=
  match m with
  | create_distribution | update_distribution | delete_distribution
  | create_cloud_front_origin_access_identity
  | update_cloud_front_origin_access_identity
  | delete_cloud_front_origin_access_identity
  | create_invalidation
  | create_streaming_distribution | update_streaming_distribution
  | delete_streaming_distribution => true
  | _ => false
  end.

Definition mutation (e : event) : bool :=
  match e with
  | EvCall m _ => mutating m
  | EvSleep _ => false
  end.

(** Some create, update or delete call is among the events. *)
Definition issued_mutation (evs : list event) : bool := existsb mutation evs.

(** The methods [removal] picks from. *)
Definition deleting (e : event) : bool :=
  match e with
  | EvCall delete_distribution _
  | EvCall delete_cloud_front_origin_access_identity _
  | EvCall delete_streaming_distribution _ => true
  | _ => false
  end.

(** Some delete call is among the events. *)
Definition issued_deletion (evs : list event) : bool := existsb deleting evs.



(** The poll of [wait_for_deployed_status] as an event. *)
Definition poll_event (module : params) (args : kwargs) : event :=
  EvCall (fst (status_invocations (type module))) args.

(** An unsuccessful round of the polling loop: the poll and the sleep. *)
Definition one_round (module : params) (args : kwargs) : list event :=
  [poll_event module args; EvSleep polling_increment_secs].

(** [k] unsuccessful rounds: poll, sleep, poll, sleep... *)
Fixpoint rounds (module : params) (args : kwargs) (k : nat) : list event :=
  match k with
  | O => []
  | S k' => one_round module args ++ rounds module args k'
  end.








(** The parsed policy has no value under the key CallerReference. *)
Definition lacks_caller_reference (pol : value) : Prop :=
  forall x, getitem pol "CallerReference" <> inr x.

(** The existing resource has the CallerReference of the policy. *)
Definition shares (caller_reference : value) (item : temp_object) : bool :=
  match getitem (Config item) "CallerReference" with
  | inr item_reference => py_eq caller_reference item_reference
  | inl _ => false
  end.

(** The listed config carries a CallerReference. *)
Definition listed (item : temp_object) : Prop :=
  exists item_reference,
    getitem (Config item) "CallerReference" = inr item_reference.

(** The client answers every call of the method. *)
Definition answers (host : Host) (m : api_method) : Prop :=
  forall h args, exists v, client host h m args = inr v.

(** The loop of [creation_setup] starts with these variables. *)
Definition initial : locals :=
  {| changed := false; results := None; caller_reference_exists := false |}.

(** The create call of [creation]. *)
Definition create_event (module : params) (pol : value) : event :=
  let '(method, config_param, _) := creation_invocations (type module) in
  EvCall method ((config_param, pol) :: distribution_arg module).

(** After history [h] the create call is answered with a resource that has
    an Id, and the wait that follows returns False with the events [evs]. *)
Definition create_times_out (host : Host) (module : params) (pol : value)
  (h : history) (evs : list event) : Prop :=
  let '(method, config_param, result_key) := creation_invocations (type module) in
  exists response created created_id,
    client host h method ((config_param, pol) :: distribution_arg module)
    = inr response
    /\ getitem (json_roundtrip response) result_key = inr created
    /\ getitem created "Id" = inr created_id
    /\ wait_for_deployed_status host module default_max_retries
         (distribution_arg module ++ [("Id", created_id)])
         (h ++ [create_event module pol])
       = (Return false, evs).

(** After history [h] the call [update] issues is [issued], it is answered,
    and the wait that follows returns False with the events [evs]. *)
Definition update_times_out (host : Host) (module : params)
  (pol rid etag : value) (h : history) (issued : event) (evs : list event)
  : Prop :=
  exists method config_param response,
    update_invocations (type module) = Some (method, config_param)
    /\ issued = EvCall method
                  [(config_param, pol); ("Id", rid); ("IfMatch", etag)]
    /\ client host h method
         [(config_param, pol); ("Id", rid); ("IfMatch", etag)]
       = inr response
    /\ wait_for_deployed_status host module default_max_retries [("Id", rid)]
         (h ++ [issued])
       = (Return false, evs).

(** The fetched config says the resource is not enabled. *)
Definition disabled (config : value) (config_param : string) : Prop :=
  exists type_config enabled,
    getitem config config_param = inr type_config
    /\ getitem type_config "Enabled" = inr enabled
    /\ truthy enabled = false.

(** A call of the method that updates a streaming distribution. *)
Definition streaming_update (e : event) : bool :=
  match e with
  | EvCall update_streaming_distribution _ => true
  | _ => false
  end.

(** [wp m Q h]: run after history [h], the computation [m] ends in an
    outcome and with events that satisfy [Q]. *)
Definition wp {A} (m : M A) (Q : outcome A -> list event -> Prop)
  (h : history) : Prop :=
  Q (fst (m h)) (snd (m h)).

(** [quiet m]: the computation issues no create, update or delete call,
    however it ends. *)
Definition quiet {A} (m : M A) : Prop :=
  forall h, wp m (fun _ evs => issued_mutation evs = false) h.

(** [unused m]: the computation never calls [update_streaming_distribution],
    however it ends. *)
Definition unused {A} (m : M A) : Prop :=
  forall h, wp m (fun _ evs => existsb streaming_update evs = false) h.

(** ** Vocabulary of the further properties *)

(** Seconds slept among the events. *)
Fixpoint slept (evs : list event) : Z :=
  match evs with
  | [] => 0
  | EvSleep secs :: evs' => secs + slept evs'
  | EvCall _ _ :: evs' => slept evs'
  end.

(** What [get_existing_distributions] records for a listed distribution:
    its Id and DomainName, and the config and ETag the client gave for that
    Id. *)
Definition recorded_distribution (host : Host) (dist : value)
  (item : temp_object) : Prop :=
  getitem dist "Id" = inr (Id item)
  /\ (exists domain_name,
         getitem dist "DomainName" = inr domain_name
         /\ DomainName item = Some domain_name)
  /\ exists h config,
       client host h get_distribution_config [("Id", Id item)] = inr config
       /\ getitem config "DistributionConfig" = inr (Config item)
       /\ getitem config "ETag" = inr (ETag item).

(** The config fetch after which [get_existing_distributions] records an
    item. *)
Definition config_fetch (item : temp_object) : list event :=
  [EvCall get_distribution_config [("Id", Id item)]].


(** The list call of a listing function and the key its answer is read
    under. *)
Definition list_invocation (module : params) : api_method * kwargs * string :=
  match type module with
  | distribution => (list_distributions, [], "DistributionList")
  | origin_access_id =>
      (list_cloud_front_origin_access_identities, [],
       "CloudFrontOriginAccessIdentityList")
  | invalidation =>
      (list_invalidations, [("DistributionId", param_value (resource_id module))],
       "InvalidationList")
  | streaming => (list_streaming_distributions, [], "StreamingDistributionList")
  end.

(** A sleep of the module. *)
Definition sleeping (e : event) : bool :=
  match e with
  | EvSleep _ => true
  | EvCall _ _ => false
  end.

(** [never p m]: no event of the computation satisfies [p], however it
    ends. *)
Definition never (p : event -> bool) {A} (m : M A) : Prop :=
  forall h, wp m (fun _ evs => existsb p evs = false) h.

(** The methods [creation] picks from. *)
Definition creating (e : event) : bool :=
  match e with
  | EvCall create_distribution _
  | EvCall create_cloud_front_origin_access_identity _
  | EvCall create_invalidation _
  | EvCall create_streaming_distribution _ => true
  | _ => false
  end.

(** The update methods of the client. *)
Definition updating (e : event) : bool :=
  match e with
  | EvCall update_distribution _
  | EvCall update_cloud_front_origin_access_identity _
  | EvCall update_streaming_distribution _ => true
  | _ => false
  end.

(** Number of create calls among the events. *)
Definition creations (evs : list event) : nat :=
  List.length (filter creating evs).

(** The outcome is not an UnboundLocalError. *)
Definition bound {A} (o : outcome A) : Prop :=
  forall name, o <> Raise (UnboundLocalError name).

(** [assigns m]: the computation never ends in an UnboundLocalError. *)
Definition assigns {A} (m : M A) : Prop :=
  forall h, wp m (fun o _ => bound o) h.

(** The client raises no UnboundLocalError of its own. *)
Definition well_behaved (host : Host) : Prop :=
  forall h m args name, client host h m args <> inl (UnboundLocalError name).

(** The loop of [creation_setup] has assigned [results] whenever it has set
    [caller_reference_exists]. *)
Definition results_assigned (vars : locals) : Prop :=
  caller_reference_exists vars = true -> results vars <> None.

(** ** Hosts and parameters for worked runs *)

Module Fixtures.

Definition api_method_eq_dec (a b : api_method) : {a = b} + {a <> b}.
Proof. decide equality. Defined.

(** The Id keyword argument of a call, None when there is none. *)
Definition arg_id (args : kwargs) : value :=
  match dict_get "Id" args with
  | Some v => v
  | None => VNone
  end.

(** A scripted answer: for a method, and for one Id or for any. *)
Record answer : Type := {
  on_method : api_method;
  on_id : option value;
  response : value
}.

Definition answer_for (m : api_method) (args : kwargs) (a : answer) : bool :=
  if api_method_eq_dec m (on_method a) then
    match on_id a with
    | Some id => py_eq id (arg_id args)
    | None => true
    end
  else false.

(** A client that answers from a script and raises on anything else. *)
Definition scripted (script : list answer)
  : history -> api_method -> kwargs -> exn + value :=
  fun _ m args =>
    match find (answer_for m args) script with
    | Some a => inr (response a)
    | None => inl (ClientError "unexpected call")
    end.

Definition is_sleep (e : event) : bool :=
  match e with
  | EvSleep _ => true
  | EvCall _ _ => false
  end.

(** A client whose answers are [before] until the module has slept [naps]
    times and [after] from then on. *)
Definition settling (naps : nat) (before after : list answer)
  : history -> api_method -> kwargs -> exn + value :=
  fun h m args =>
    if Nat.leb naps (List.length (filter is_sleep h))
    then scripted after h m args
    else scripted before h m args.

(** A parser that knows the texts of a table. *)
Definition parse_table (texts : list (string * value)) (text : string)
  : string + value :=
  match find (fun entry => String.eqb text (fst entry)) texts with
  | Some entry => inr (snd entry)
  | None => inl "No JSON object could be decoded"
  end.

(** A file system that holds the files of a table. *)
Definition files_table (files : list (string * string)) (path : string)
  : file_outcome :=
  match find (fun entry => String.eqb path (fst entry)) files with
  | Some entry => FileContent (snd entry)
  | None => FileIOError
  end.

(** A three-way comparison that is 0 on equal values. *)
Definition cmp_by_eq (a b : value) : Z := if py_eq a b then 0 else 1.

Definition host_of (c : history -> api_method -> kwargs -> exn + value)
  (files : list (string * string)) (texts : list (string * value)) : Host :=
  {| client := c;
     open_read := files_table files;
     json_loads := parse_table texts;
     cmp := cmp_by_eq;
     HAS_BOTO3 := true;
     boto3_conn := None |}.

(** The policy file of the runs and the configs the provider holds. *)
Definition policy_path : string := "files/policy.json".

Definition policy_text : string := "{CallerReference: ref-1, Comment: new}".

Definition new_config : value :=
  VDict [("CallerReference", VStr "ref-1"); ("Comment", VStr "new");
         ("Enabled", VBool true)].

Definition old_config : value :=
  VDict [("CallerReference", VStr "ref-1"); ("Comment", VStr "old");
         ("Enabled", VBool true)].

Definition files : list (string * string) := [(policy_path, policy_text)].

(** A policy given as JSON text that has no CallerReference. *)
Definition comment_only : string := "{Comment: new}".

Definition texts : list (string * value) :=
  [(policy_text, new_config); ("5", VInt 5);
   (comment_only, VDict [("Comment", VStr "new")])].

Definition with_policy (t : resource) (id : option string) (wait : bool) : params :=
  {| type := t; policy := Some policy_path; resource_id := id;
     state := present; wait_for_deployed := wait |}.

Definition with_text (text : option string) (t : resource) : params :=
  {| type := t; policy := text; resource_id := None;
     state := present; wait_for_deployed := false |}.

Definition removing (t : resource) (id : option string) (wait : bool) : params :=
  {| type := t; policy := None; resource_id := id;
     state := absent; wait_for_deployed := wait |}.

Definition summary (id domain : string) : value :=
  VDict [("Id", VStr id); ("DomainName", VStr domain)].

Definition listing (key : string) (items : list value) : value :=
  VDict [(key, VDict [("Items", VList items)])].

Definition config_answer (key : string) (config : value) (etag : string) : value :=
  VDict [(key, config); ("ETag", VStr etag)].

Definition resource_answer (key id status : string) : value :=
  VDict [(key, VDict [("Id", VStr id); ("Status", VStr status)]);
         ("ETag", VStr "E9")].

(** *** A streaming distribution whose config differs from the policy *)

Definition streaming_script : list answer :=
  [ {| on_method := list_streaming_distributions; on_id := None;
       response := listing "StreamingDistributionList"
                     [summary "S1" "s1.cloudfront.net"] |};
    {| on_method := get_streaming_distribution_config; on_id := Some (VStr "S1");
       response := config_answer "StreamingDistributionConfig" old_config "E1" |};
    {| on_method := update_streaming_distribution; on_id := None;
       response := resource_answer "StreamingDistribution" "S1" "InProgress" |};
    {| on_method := create_streaming_distribution; on_id := None;
       response := resource_answer "StreamingDistribution" "S2" "InProgress" |} ].

Definition streaming_host : Host := host_of (scripted streaming_script) files texts.

(** *** Distributions *)

Definition distribution_script (items : list value) : list answer :=
  [ {| on_method := list_distributions; on_id := None;
       response := listing "DistributionList" items |};
    {| on_method := get_distribution_config; on_id := Some (VStr "D1");
       response := config_answer "DistributionConfig" new_config "E1" |};
    {| on_method := get_distribution_config; on_id := Some (VStr "D2");
       response := config_answer "DistributionConfig" old_config "E2" |};
    {| on_method := get_distribution; on_id := None;
       response := resource_answer "Distribution" "D1" "InProgress" |};
    {| on_method := create_distribution; on_id := None;
       response := resource_answer "Distribution" "D3" "InProgress" |};
    {| on_method := update_distribution; on_id := None;
       response := resource_answer "Distribution" "D2" "InProgress" |};
    {| on_method := delete_distribution; on_id := None;
       response := VDict [] |} ].

(** One distribution, with the config of the policy. *)
Definition one_equal : Host :=
  host_of (scripted (distribution_script [summary "D1" "d1.cloudfront.net"]))
    files texts.

(** Two distributions with the CallerReference of the policy: the first has
    the config of the policy, the second another one. *)
Definition equal_then_different : Host :=
  host_of (scripted (distribution_script
                       [summary "D1" "d1.cloudfront.net";
                        summary "D2" "d2.cloudfront.net"]))
    files texts.

(** No distribution yet. *)
Definition none_listed : Host :=
  host_of (scripted (distribution_script [])) files texts.

(** The distribution D1 is deployed once the module has slept twice. *)
Definition deployed_answers : list answer :=
  [ {| on_method := get_distribution; on_id := None;
       response := resource_answer "Distribution" "D1" "Deployed" |} ].

Definition settling_host : Host :=
  host_of (settling 2 (distribution_script []) deployed_answers) files texts.

(** *** Invalidations of the distribution D1 *)

Definition invalidation_script : list answer :=
  [ {| on_method := list_invalidations; on_id := None;
       response := listing "InvalidationList" [VDict [("Id", VStr "I1")]] |};
    {| on_method := get_invalidation; on_id := None;
       response :=
         VDict [("Invalidation",
                 VDict [("Id", VStr "I1"); ("Status", VStr "Completed");
                        ("InvalidationBatch", old_config)])] |} ].

Definition invalidation_host : Host :=
  host_of (scripted invalidation_script) files texts.

End Fixtures.

(** ** Further hosts for worked runs *)

Module Samples.

Import Fixtures.

(** A list answer without the key Items. *)
Definition bare_listing (key : string) : value :=
  VDict [(key, VDict [("Quantity", VInt 0)])].

(** An account that holds no resource: the list answers carry no Items. *)
Definition empty_account_script : list answer :=
  [ {| on_method := list_distributions; on_id := None;
       response := bare_listing "DistributionList" |};
    {| on_method := list_cloud_front_origin_access_identities; on_id := None;
       response := bare_listing "CloudFrontOriginAccessIdentityList" |};
    {| on_method := list_invalidations; on_id := None;
       response := bare_listing "InvalidationList" |};
    {| on_method := list_streaming_distributions; on_id := None;
       response := bare_listing "StreamingDistributionList" |};
    {| on_method := create_distribution; on_id := None;
       response := resource_answer "Distribution" "D3" "InProgress" |};
    {| on_method := create_streaming_distribution; on_id := None;
       response := resource_answer "StreamingDistribution" "S2" "InProgress" |} ].

Definition empty_account : Host :=
  host_of (scripted empty_account_script) files texts.

(** A distribution with another CallerReference, listed before one with the
    CallerReference of the policy and another config. *)
Definition other_config : value :=
  VDict [("CallerReference", VStr "ref-2"); ("Comment", VStr "other");
         ("Enabled", VBool true)].

Definition other_then_different : Host :=
  host_of (scripted
             ({| on_method := get_distribution_config; on_id := Some (VStr "D4");
                 response := config_answer "DistributionConfig" other_config "E4" |}
              :: distribution_script
                   [summary "D4" "d4.cloudfront.net";
                    summary "D2" "d2.cloudfront.net"]))
    files texts.

(** The distribution D5 is disabled. *)
Definition disabled_config : value :=
  VDict [("CallerReference", VStr "ref-5"); ("Comment", VStr "old");
         ("Enabled", VBool false)].

(** The answer of [get_distribution] for a deployed distribution. *)
Definition fetched (id : string) (config : value) (etag : string) : value :=
  VDict [("Distribution",
          VDict [("Id", VStr id); ("Status", VStr "Deployed");
                 ("DistributionConfig", config)]);
         ("ETag", VStr etag)].

Definition disabled_host : Host :=
  host_of (scripted
             [ {| on_method := get_distribution_config; on_id := Some (VStr "D5");
                  response :=
                    config_answer "DistributionConfig" disabled_config "E5" |};
               {| on_method := get_distribution; on_id := Some (VStr "D5");
                  response := fetched "D5" disabled_config "E5" |};
               {| on_method := delete_distribution; on_id := Some (VStr "D5");
                  response := VDict [] |} ])
    files texts.

(** The distribution D1 is enabled and deployed. *)
Definition enabled_host : Host :=
  host_of (scripted
             [ {| on_method := get_distribution; on_id := Some (VStr "D1");
                  response := fetched "D1" old_config "E1" |};
               {| on_method := update_distribution; on_id := Some (VStr "D1");
                  response := fetched "D1" disabled_config "E6" |};
               {| on_method := get_distribution_config; on_id := Some (VStr "D1");
                  response :=
                    config_answer "DistributionConfig" disabled_config "E6" |};
               {| on_method := delete_distribution; on_id := Some (VStr "D1");
                  response := VDict [] |} ])
    files texts.

(** The streaming distribution S5 is disabled and deployed; the client
    answers [get_distribution_config] as it does for a distribution. *)
Definition disabled_streaming_host : Host :=
  host_of (scripted
             [ {| on_method := get_streaming_distribution;
                  on_id := Some (VStr "S5");
                  response :=
                    VDict [("StreamingDistribution",
                            VDict [("Id", VStr "S5"); ("Status", VStr "Deployed");
                                   ("StreamingDistributionConfig",
                                    disabled_config)]);
                           ("ETag", VStr "E5")] |};
               {| on_method := get_distribution_config; on_id := None;
                  response :=
                    config_answer "DistributionConfig" disabled_config "E5" |};
               {| on_method := delete_streaming_distribution; on_id := None;
                  response := VDict [] |} ])
    files texts.

End Samples.

(** ** Running the monad *)

Section Run.

Variable host : Host.

Lemma bind_ret A B (a : A) (f : A -> M B) h :
  bind (ret a) f h = f a h.
Proof.
  unfold bind, ret. rewrite app_nil_r. destruct (f a h); reflexivity.
Qed.

Lemma bind_lift_inr A B (a : A) (f : A -> M B) h :
  bind (lift (inr a)) f h = f a h.
Proof. apply bind_ret. Qed.

Lemma bind_lift_inl A B (e : exn) (f : A -> M B) h :
  bind (lift (inl e)) f h = (Raise e, []).
Proof. reflexivity. Qed.

Lemma bind_fail_json A B msg (f : A -> M B) h :
  bind (fail_json msg) f h = (Fail msg, []).
Proof. reflexivity. Qed.

Lemma bind_raise A B e (f : A -> M B) h :
  bind (raise e) f h = (Raise e, []).
Proof. reflexivity. Qed.

Lemma bind_bind A B C (m : M A) (f : A -> M B) (g : B -> M C) h :
  bind (bind m f) g h = bind m (fun a => bind (f a) g) h.
Proof.
  unfold bind. destruct (m h) as [[a | msg | e] e1]; try reflexivity.
  destruct (f a (h ++ e1)) as [[b | msg | e] e2]; try reflexivity.
  rewrite <- app_assoc. destruct (g b (h ++ e1 ++ e2)) as [o e3].
  rewrite app_assoc. reflexivity.
Qed.

(** When the first computation returns, the rest runs after its events. *)
Lemma bind_return A B (m : M A) (f : A -> M B) h a e1 :
  m h = (Return a, e1) ->
  bind m f h = (fst (f a (h ++ e1)), e1 ++ snd (f a (h ++ e1))).
Proof.
  intros Hm. unfold bind. rewrite Hm. destruct (f a (h ++ e1)); reflexivity.
Qed.

Lemma bind_failed A B (m : M A) (f : A -> M B) h msg e1 :
  m h = (Fail msg, e1) -> bind m f h = (Fail msg, e1).
Proof. intros Hm. unfold bind. rewrite Hm. reflexivity. Qed.

Lemma bind_raised A B (m : M A) (f : A -> M B) h e e1 :
  m h = (Raise e, e1) -> bind m f h = (Raise e, e1).
Proof. intros Hm. unfold bind. rewrite Hm. reflexivity. Qed.

Lemma call_answer m args h v :
  client host h m args = inr v ->
  call host m args h = (Return v, [EvCall m args]).
Proof. intros Hc. unfold call. rewrite Hc. reflexivity. Qed.

Lemma call_raise m args h e :
  client host h m args = inl e ->
  call host m args h = (Raise e, [EvCall m args]).
Proof. intros Hc. unfold call. rewrite Hc. reflexivity. Qed.

(** *** Postconditions *)

Lemma wp_ret A (a : A) (Q : outcome A -> list event -> Prop) h :
  Q (Return a) [] -> wp (ret a) Q h.
Proof. auto. Qed.

Lemma wp_fail_json A msg (Q : outcome A -> list event -> Prop) h :
  Q (Fail msg) [] -> wp (fail_json msg) Q h.
Proof. auto. Qed.

Lemma wp_raise A e (Q : outcome A -> list event -> Prop) h :
  Q (Raise e) [] -> wp (raise e) Q h.
Proof. auto. Qed.

Lemma wp_lift A (r : exn + A) (Q : outcome A -> list event -> Prop) h :
  (forall a, r = inr a -> Q (Return a) []) ->
  (forall e, r = inl e -> Q (Raise e) []) ->
  wp (lift r) Q h.
Proof. destruct r; unfold wp; simpl; auto. Qed.

Lemma wp_sleep secs (Q : outcome unit -> list event -> Prop) h :
  Q (Return tt) [EvSleep secs] -> wp (sleep secs) Q h.
Proof. auto. Qed.

Lemma wp_call m args (Q : outcome value -> list event -> Prop) h :
  (forall v, client host h m args = inr v -> Q (Return v) [EvCall m args]) ->
  (forall e, client host h m args = inl e -> Q (Raise e) [EvCall m args]) ->
  wp (call host m args) Q h.
Proof.
  intros Hv He. unfold wp, call.
  destruct (client host h m args); simpl; auto.
Qed.

Lemma wp_bind A B (m : M A) (f : A -> M B)
  (Q : outcome B -> list event -> Prop) h :
  wp m (fun o e1 =>
          match o with
          | Return a => wp (f a) (fun o2 e2 => Q o2 (e1 ++ e2)) (h ++ e1)
          | Fail msg => Q (Fail msg) e1
          | Raise e => Q (Raise e) e1
          end) h ->
  wp (bind m f) Q h.
Proof.
  unfold wp, bind. destruct (m h) as [[a | msg | e] e1]; simpl; auto.
  destruct (f a (h ++ e1)); simpl; auto.
Qed.

Lemma wp_any A (m : M A) (Q : outcome A -> list event -> Prop) h :
  (forall o e, Q o e) -> wp m Q h.
Proof. unfold wp. auto. Qed.

Lemma wp_weaken A (m : M A) (P Q : outcome A -> list event -> Prop) h :
  wp m P h -> (forall o e, P o e -> Q o e) -> wp m Q h.
Proof. unfold wp. auto. Qed.

End Run.

(** ** Python equality against a string literal *)




Example py_eq_bool_int : py_eq (VBool true) (VInt 1) = true.
Proof. reflexivity. Qed.

Example py_eq_dict_order :
  py_eq (VDict [("Id", VStr "D1"); ("Enabled", VBool true)])
        (VDict [("Enabled", VBool true); ("Id", VStr "D1")]) = true.
Proof. reflexivity. Qed.

Example py_eq_dict_value :
  py_eq (VDict [("Id", VStr "D1"); ("Enabled", VBool true)])
        (VDict [("Id", VStr "D1"); ("Enabled", VBool false)]) = false.
Proof. reflexivity. Qed.

Example contains_key :
  contains "CallerReference" (VDict [("CallerReference", VStr "ref-1")])
  = inr true.
Proof. reflexivity. Qed.

Example contains_substring :
  contains "CallerReference" (VStr "no CallerReference here") = inr true.
Proof. reflexivity. Qed.

Example contains_number : contains "CallerReference" (VInt 5) = inl TypeError.
Proof. reflexivity. Qed.

Example getitem_list :
  getitem (VList [VStr "CallerReference"]) "CallerReference" = inl TypeError.
Proof. reflexivity. Qed.

Example iterate_dict :
  iterate (VDict [("Id", VStr "D1"); ("Status", VStr "Deployed")])
  = inr [VStr "Id"; VStr "Status"].
Proof. reflexivity. Qed.

Example truthy_empty : truthy (VStr "") = false /\ truthy (VInt 0) = false.
Proof. split; reflexivity. Qed.

(** ** The polling loop *)

Section Polling.

Variable host : Host.
Variable module : params.
Variable args : kwargs.

(** A poll is one SDK call, whatever comes of it. *)
Lemma poll_status_events h :
  snd (poll_status host module args h) = [poll_event module args].
Proof.
  unfold poll_status, poll_event.
  destruct (status_invocations (type module)) as [method result_key]. simpl.
  unfold bind, call. destruct (client host h method args) as [e | v]; simpl; auto.
  destruct (getitem v result_key) as [e | r]; simpl; auto.
  destruct (getitem r "Status"); reflexivity.
Qed.

Lemma poll_status_run h :
  poll_status host module args h
  = (fst (poll_status host module args h), [poll_event module args]).
Proof. rewrite <- (poll_status_events h). apply surjective_pairing. Qed.

(** One turn of the loop. *)
Lemma poll_loop_step n h :
  poll_loop host module args (S n) h =
  match fst (poll_status host module args h) with
  | Return status =>
      if deployed status then (Return true, [poll_event module args])
      else (fst (poll_loop host module args n (h ++ one_round module args)),
            one_round module args
            ++ snd (poll_loop host module args n (h ++ one_round module args)))
  | Fail msg => (Fail msg, [poll_event module args])
  | Raise e => (Raise e, [poll_event module args])
  end.
Proof.
  simpl. unfold bind at 1. pose proof (poll_status_events h) as Hevents.
  destruct (poll_status host module args h) as [[status | msg | e] evs];
    simpl in Hevents; subst evs; simpl; try reflexivity.
  destruct (deployed status); [reflexivity |].
  unfold bind, sleep, one_round. rewrite <- app_assoc. simpl.
  destruct (poll_loop host module args n _); reflexivity.
Qed.










End Polling.


(** ** Which calls change resources *)

Lemma issued_mutation_app e1 e2 :
  issued_mutation (e1 ++ e2) = issued_mutation e1 || issued_mutation e2.
Proof. apply existsb_app. Qed.

(** Steps through a computation, one bind, call or test at a time. *)
Ltac wp_step :=
  lazymatch goal with
  | |- wp (ret _) _ _ => apply wp_ret
  | |- wp (fail_json _) _ _ => apply wp_fail_json
  | |- wp (raise _) _ _ => apply wp_raise
  | |- wp (sleep _) _ _ => apply wp_sleep
  | |- wp (bind _ _) _ _ => apply wp_bind
  | |- wp (lift _) _ _ => apply wp_lift; intros
  | |- wp (call _ _ _) _ _ => apply wp_call; intros
  | |- wp (if ?b then _ else _) _ _ => destruct b eqn:?
  | |- wp (match ?x with _ => _ end) _ _ => destruct x eqn:?
  | |- wp (let (_, _) := ?x in _) _ _ => destruct x eqn:?
  end.

Ltac wp_run := repeat (cbv beta iota; wp_step).

Section Quiet.

Variable host : Host.

Lemma wp_quiet A (m : M A) (Q : outcome A -> list event -> Prop) h :
  quiet m ->
  (forall o evs, issued_mutation evs = false -> Q o evs) ->
  wp m Q h.
Proof. intros Hm HQ. eapply wp_weaken; [apply Hm | auto]. Qed.

Lemma for_each_quiet A B (f : A -> M B) xs :
  (forall x, quiet (f x)) -> quiet (for_each f xs).
Proof.
  intros Hf. induction xs as [| x xs IH]; intros h; simpl.
  - apply wp_ret. reflexivity.
  - apply wp_bind. apply wp_quiet; [apply Hf |]. intros [y | msg | e] e1 He1; auto.
    apply wp_bind. apply wp_quiet; [apply IH |]. intros [ys | msg | e] e2 He2.
    + apply wp_ret. rewrite !issued_mutation_app, He1, He2. reflexivity.
    + rewrite issued_mutation_app, He1, He2. reflexivity.
    + rewrite issued_mutation_app, He1, He2. reflexivity.
Qed.

End Quiet.

Section QuietScript.

Variable host : Host.
Variable module : params.

Ltac quiet_done :=
  intros; simpl; rewrite ?issued_mutation_app;
  repeat match goal with
         | H : issued_mutation _ = false |- _ => rewrite H
         end; reflexivity.

Lemma get_existing_distributions_quiet :
  quiet (get_existing_distributions host module).
Proof.
  intros h. unfold get_existing_distributions. wp_run; try quiet_done.
  apply wp_quiet.
  - apply for_each_quiet. intros dist h'. wp_run; quiet_done.
  - quiet_done.
Qed.

Lemma get_existing_origin_access_id_quiet :
  quiet (get_existing_origin_access_id host module).
Proof.
  intros h. unfold get_existing_origin_access_id. wp_run; try quiet_done.
  apply wp_quiet.
  - apply for_each_quiet. intros origin h'. wp_run; quiet_done.
  - quiet_done.
Qed.

Lemma get_existing_invalidations_quiet :
  quiet (get_existing_invalidations host module).
Proof.
  intros h. unfold get_existing_invalidations. wp_run; try quiet_done.
  apply wp_quiet.
  - apply for_each_quiet. intros inv h'. wp_run; quiet_done.
  - quiet_done.
Qed.

Lemma get_existing_streaming_distributions_quiet :
  quiet (get_existing_streaming_distributions host module).
Proof.
  intros h. unfold get_existing_streaming_distributions. wp_run; try quiet_done.
  apply wp_quiet.
  - apply for_each_quiet. intros dist h'. wp_run; quiet_done.
  - quiet_done.
Qed.

Lemma get_config_method_quiet :
  quiet (get_config_method host (type module) module).
Proof.
  destruct (type module); simpl.
  - apply get_existing_distributions_quiet.
  - apply get_existing_origin_access_id_quiet.
  - apply get_existing_invalidations_quiet.
  - apply get_existing_streaming_distributions_quiet.
Qed.

Lemma status_invocations_quiet : mutating (fst (status_invocations (type module))) = false.
Proof. destruct (type module); reflexivity. Qed.

Lemma details_invocations_quiet : mutating (details_invocations (type module)) = false.
Proof. destruct (type module); reflexivity. Qed.

Lemma wait_for_deployed_status_quiet max_retries args :
  quiet (wait_for_deployed_status host module max_retries args).
Proof.
  unfold wait_for_deployed_status. intros h. revert h.
  induction max_retries as [| n IH]; intros h.
  - apply wp_ret. reflexivity.
  - unfold wp. rewrite poll_loop_step.
    destruct (fst (poll_status host module args h)) as [status | msg | e];
      [destruct (deployed status) |..]; simpl;
      rewrite ?status_invocations_quiet; try reflexivity.
    apply IH.
Qed.

Lemma return_resource_details_quiet item :
  quiet (return_resource_details host module item).
Proof.
  intros h. unfold return_resource_details. wp_run;
    simpl; rewrite details_invocations_quiet; reflexivity.
Qed.

Lemma load_policy_silent h :
  snd (load_policy host module h) = [].
Proof.
  unfold load_policy. destruct (policy module) as [text |]; [| reflexivity].
  destruct (supplied (Some text)); [| reflexivity].
  destruct (open_read host text) as [json_data | | msg]; try reflexivity.
  - destruct (json_loads host json_data); reflexivity.
  - destruct (json_loads host text); reflexivity.
Qed.

Ltac mutation_done :=
  simpl; first [ reflexivity | congruence | split; [reflexivity | congruence] ].

Lemma creation_changed policy h :
  wp (creation host module policy)
     (fun o evs =>
        issued_mutation evs = true
        /\ forall c r, o = Return (c, r) -> c = true) h.
Proof.
  unfold creation. destruct (type module) eqn:Htype; simpl.
  all: wp_run; try mutation_done.
  all: apply wp_any; intros [[] | msg | e] evs; wp_run; mutation_done.
Qed.

Lemma update_changed policy rid etag h :
  wp (update host module policy rid etag)
     (fun o evs =>
        match o with
        | Return (c, _) => c = true /\ issued_mutation evs = true
        | _ => True
        end) h.
Proof.
  unfold update. destruct (type module) eqn:Htype; simpl.
  all: wp_run; try mutation_done; auto.
  all: apply wp_any; intros [[] | msg | e] evs; wp_run; auto.
Qed.

Lemma removal_changed rid etag h :
  wp (removal host module rid etag)
     (fun o evs =>
        match o with
        | Return (c, _) => c = true /\ issued_mutation evs = true
        | _ => True
        end) h.
Proof.
  unfold removal. destruct (type module) eqn:Htype; simpl.
  all: wp_run; auto.
Qed.

(** One turn of the loop of [creation_setup] keeps [changed] in step with
    the mutating calls it issues. *)
Lemma creation_step_changed policy caller_reference vars item h :
  wp (creation_step host module policy caller_reference vars item)
     (fun o evs =>
        match o with
        | Return vars' => changed vars' = changed vars || issued_mutation evs
        | _ => True
        end) h.
Proof.
  unfold creation_step. wp_run; auto.
  - apply wp_quiet; [apply return_resource_details_quiet |].
    intros [details | msg | e] evs Hevs; auto.
    wp_run. simpl. rewrite app_nil_r, Hevs, orb_false_r. reflexivity.
  - eapply wp_weaken; [apply update_changed |].
    intros [[updated result] | msg | e] evs; auto.
    intros [-> Hevs]. wp_run. simpl. rewrite app_nil_r, Hevs, orb_true_r.
    reflexivity.
  - simpl. rewrite orb_false_r. reflexivity.
Qed.

Lemma creation_loop_changed policy caller_reference existing : forall vars h,
  wp (for_fold (creation_step host module policy caller_reference) vars existing)
     (fun o evs =>
        match o with
        | Return vars' => changed vars' = changed vars || issued_mutation evs
        | _ => True
        end) h.
Proof.
  induction existing as [| item existing IH]; intros vars h; simpl.
  - apply wp_ret. simpl. rewrite orb_false_r. reflexivity.
  - apply wp_bind. eapply wp_weaken; [apply creation_step_changed |].
    intros [vars1 | msg | e] e1; auto. intros H1.
    eapply wp_weaken; [apply IH |].
    intros [vars2 | msg | e] e2; auto. intros H2.
    rewrite H2, H1, issued_mutation_app, orb_assoc. reflexivity.
Qed.

Lemma load_policy_run h :
  load_policy host module h = (fst (load_policy host module h), []).
Proof. rewrite <- (load_policy_silent h). apply surjective_pairing. Qed.

Lemma creation_setup_changed h :
  wp (creation_setup host module)
     (fun o evs =>
        match o with
        | Return (c, _) => c = issued_mutation evs
        | _ => True
        end) h.
Proof.
  unfold creation_setup. apply wp_bind.
  unfold wp at 1. rewrite load_policy_run. simpl.
  destruct (fst (load_policy host module h)) as [policy | msg | e]; auto.
  wp_run; auto.
  apply wp_quiet; [apply get_config_method_quiet |].
  intros [existing | msg | e] e0 He0; auto.
  apply wp_bind. eapply wp_weaken; [apply creation_loop_changed |].
  intros [vars | msg | e] e1; auto. simpl. intros Hvars.
  wp_run; auto.
  - simpl. rewrite !app_nil_r, issued_mutation_app, He0. exact Hvars.
  - eapply wp_weaken; [apply creation_changed |].
    intros [[created result] | msg | e] e2 [He2 Hc]; auto.
    rewrite (Hc created result eq_refl). wp_run; auto. simpl.
    rewrite !app_nil_r, !issued_mutation_app, He2, !orb_true_r. reflexivity.
Qed.

Lemma removal_setup_changed h :
  wp (removal_setup host module)
     (fun o evs =>
        match o with
        | Return (c, _) => c = true /\ issued_mutation evs = true
        | _ => True
        end) h.
Proof.
  unfold removal_setup. wp_run; auto.
  - apply wp_any. intros [[status config] | msg | e] e0; auto.
    wp_run; auto.
    eapply wp_weaken; [apply removal_changed |].
    intros [[c r] | msg | e] e1; auto. intros [-> He1]. split; [reflexivity |].
    simpl. rewrite ?app_nil_r, ?issued_mutation_app, He1, ?orb_true_r.
    reflexivity.
  - eapply wp_weaken; [apply removal_changed |].
    intros [[c r] | msg | e] e1; auto. intros [-> He1]. split; [reflexivity |].
    simpl. rewrite ?app_nil_r, ?issued_mutation_app, He1, ?orb_true_r.
    reflexivity.
Qed.

Lemma main_changed h c r evs :
  main host module h = (Return (c, r), evs) -> c = issued_mutation evs.
Proof.
  unfold main. destruct (HAS_BOTO3 host); [| discriminate]. simpl.
  destruct (boto3_conn host); [discriminate |].
  destruct (state module); intros Hrun.
  - pose proof (creation_setup_changed h) as Hwp.
    unfold wp in Hwp. rewrite Hrun in Hwp. exact Hwp.
  - pose proof (removal_setup_changed h) as Hwp.
    unfold wp in Hwp. rewrite Hrun in Hwp. simpl in Hwp.
    destruct Hwp as [-> ->]. reflexivity.
Qed.

End QuietScript.

(** C8 -- when the module hands a result to the host framework, its changed
    flag is True exactly when a create, update or delete call was issued
    during the invocation; [creation], [update] and [removal] report True
    whenever they complete, after having issued such a call, and a turn of
    the loop of [creation_setup] that only fetches the details of an equal
    resource leaves the flag as it was. *)
Theorem changed_iff_mutation (host : Host) (module : params) (h : history) :
  (forall c r evs,
      main host module h = (Return (c, r), evs) ->
      (c = true <-> issued_mutation evs = true))
  /\ (forall policy c r evs,
         creation host module policy h = (Return (c, r), evs) ->
         c = true /\ issued_mutation evs = true)
  /\ (forall policy rid etag c r evs,
         update host module policy rid etag h = (Return (c, r), evs) ->
         c = true /\ issued_mutation evs = true)
  /\ (forall rid etag c r evs,
         removal host module rid etag h = (Return (c, r), evs) ->
         c = true /\ issued_mutation evs = true)
  /\ (forall policy caller_reference vars item vars' evs,
         creation_step host module policy caller_reference vars item h
         = (Return vars', evs) ->
         issued_mutation evs = false ->
         changed vars' = changed vars).
Proof.
  split; [| split; [| split; [| split]]].
  - intros c r evs Hrun. apply main_changed in Hrun. rewrite Hrun. reflexivity.
  - intros pol c r evs Hrun.
    pose proof (creation_changed host module pol h) as Hwp.
    unfold wp in Hwp. rewrite Hrun in Hwp. simpl in Hwp.
    destruct Hwp as [Hevs Hc]. split; [apply (Hc c r eq_refl) | exact Hevs].
  - intros pol rid etag c r evs Hrun.
    pose proof (update_changed host module pol rid etag h) as Hwp.
    unfold wp in Hwp. rewrite Hrun in Hwp. exact Hwp.
  - intros rid etag c r evs Hrun.
    pose proof (removal_changed host module rid etag h) as Hwp.
    unfold wp in Hwp. rewrite Hrun in Hwp. exact Hwp.
  - intros pol caller_reference vars item vars' evs Hrun Hevs.
    pose proof (creation_step_changed host module pol caller_reference
                  vars item h) as Hwp.
    unfold wp in Hwp. rewrite Hrun in Hwp. simpl in Hwp.
    rewrite Hwp, Hevs, orb_false_r. reflexivity.
Qed.

(** ** Exact runs *)

Lemma wp_exact A (m : M A) h o evs :
  wp m (fun o' evs' => o' = o /\ evs' = evs) h -> m h = (o, evs).
Proof.
  unfold wp. destruct (m h) as [o' evs']. simpl. intros [-> ->]. reflexivity.
Qed.

Lemma wp_known A (m : M A) (Q : outcome A -> list event -> Prop) h o evs :
  m h = (o, evs) -> Q o evs -> wp m Q h.
Proof. unfold wp. intros ->. auto. Qed.

Lemma getitem_contains v k x : getitem v k = inr x -> contains k v = inr true.
Proof.
  destruct v; simpl; try discriminate.
  destruct (dict_get k d); [reflexivity | discriminate].
Qed.

Lemma main_present host module h :
  HAS_BOTO3 host = true -> boto3_conn host = None -> state module = present ->
  main host module h = creation_setup host module h.
Proof. unfold main. intros -> -> ->. reflexivity. Qed.

Lemma main_absent host module h :
  HAS_BOTO3 host = true -> boto3_conn host = None -> state module = absent ->
  main host module h = removal_setup host module h.
Proof. unfold main. intros -> -> ->. reflexivity. Qed.

(** ** Removal *)

Lemma deleting_mutation e : deleting e = true -> mutation e = true.
Proof. destruct e as [m args | secs]; [destruct m |]; simpl; congruence. Qed.

Lemma no_mutation_no_deletion evs :
  issued_mutation evs = false -> issued_deletion evs = false.
Proof.
  unfold issued_mutation, issued_deletion.
  induction evs as [| e evs IH]; simpl; [reflexivity |].
  intros Hevs. apply orb_false_iff in Hevs. destruct Hevs as [He Hevs].
  rewrite (IH Hevs), orb_false_r.
  destruct (deleting e) eqn:Hdel; [| reflexivity].
  apply deleting_mutation in Hdel. congruence.
Qed.

Lemma issued_deletion_app e1 e2 :
  issued_deletion (e1 ++ e2) = issued_deletion e1 || issued_deletion e2.
Proof. apply existsb_app. Qed.

Section Removal.

Variable host : Host.
Variable module : params.

(** [update] changes a resource but deletes none. *)
Lemma update_keeps policy rid etag h :
  wp (update host module policy rid etag)
     (fun _ evs => issued_deletion evs = false) h.
Proof.
  unfold update. destruct (type module) eqn:Htype; simpl.
  all: wp_run; try reflexivity.
  all: apply wp_quiet; [apply wait_for_deployed_status_quiet |].
  all: intros [[] | msg | e] evs Hevs; wp_run; simpl;
    rewrite ?app_nil_r; apply no_mutation_no_deletion; exact Hevs.
Qed.

(** Steps through a computation that contains an update or a wait. *)
Ltac keeps_step :=
  lazymatch goal with
  | |- wp (update _ _ _ _ _) _ _ =>
      eapply wp_weaken; [apply update_keeps | intros [[? ?] | ? | ?] ? ?]
  | |- wp (wait_for_deployed_status _ _ _ _) _ _ =>
      apply wp_quiet;
      [apply wait_for_deployed_status_quiet | intros [[] | ? | ?] ? ?]
  | |- wp _ _ _ => wp_step
  end.

Ltac keeps_done :=
  repeat match goal with
         | H : issued_mutation _ = false |- _ =>
             apply no_mutation_no_deletion in H
         end;
  simpl; rewrite ?app_nil_r, ?issued_deletion_app;
  repeat match goal with
         | H : issued_deletion _ = false |- _ => rewrite H
         end;
  simpl; try (split; [reflexivity |]); auto; try (eexists; eassumption).

(** [disable_distribution] deletes nothing, and the config it returns is one
    the client gave for the resource. *)
Lemma disable_distribution_keeps h :
  wp (disable_distribution host module)
     (fun o evs =>
        issued_deletion evs = false
        /\ match o with
           | Return (_, config) =>
               exists h',
                 client host h' get_distribution_config
                   [("Id", param_value (resource_id module))] = inr config
           | _ => True
           end) h.
Proof.
  unfold disable_distribution. destruct (type module) eqn:Htype; simpl.
  all: repeat (cbv beta iota; keeps_step).
  all: keeps_done.
Qed.

(** A delete call is only issued after a config was fetched whose Enabled
    field was not true. *)
Lemma removal_setup_disabled_only h :
  wp (removal_setup host module)
     (fun _ evs =>
        issued_deletion evs = true ->
        exists method config_param h' config,
          removal_setup_invocations (type module) = Some (method, config_param)
          /\ client host h'
               (if wait_for_deployed module then get_distribution_config
                else method)
               [("Id", param_value (resource_id module))] = inr config
          /\ disabled config config_param) h.
Proof.
  unfold removal_setup, removal.
  destruct (type module) eqn:Htype; simpl;
    destruct (wait_for_deployed module) eqn:Hwait; simpl.
  all: repeat (cbv beta iota;
               lazymatch goal with
               | |- wp (disable_distribution _ _) _ _ =>
                   eapply wp_weaken;
                   [apply disable_distribution_keeps
                   | intros [[? ?] | ? | ?] ? [? ?]]
               | |- wp _ _ _ => wp_step
               end).
  all: repeat match goal with
              | H : issued_deletion _ = true |- _ => revert H
              end.
  all: simpl; rewrite ?app_nil_r, ?issued_deletion_app;
    repeat match goal with
           | H : issued_deletion _ = false |- _ => rewrite H
           end; simpl; try discriminate.
  all: intros _;
    repeat match goal with
           | H : exists _, _ |- _ => destruct H
           end;
    match goal with
    | Hn : negb (truthy _) = true |- _ => apply negb_true_iff in Hn
    end;
    do 4 eexists; split; [reflexivity |]; split; [eassumption |];
    unfold disabled; eauto.
Qed.

End Removal.

(** Identifies the answers met while stepping with the ones assumed. *)
Ltac same_answers :=
  repeat match goal with
         | H1 : ?x = inr ?a, H2 : ?x = inr ?b |- _ =>
             assert (b = a) by congruence;
             first [ subst b | subst a ]; clear H2
         | H1 : ?x = inr _, H2 : ?x = inl _ |- _ => exfalso; congruence
         end.

(** C9 -- with state absent, a delete call is only ever issued after the
    fetch of a config whose Enabled field was not true. With
    wait_for_deployed unset, a fetched config whose Enabled field is true (any
    value Python takes for true) makes the module fail with a message after
    that one fetch, so [removal] is never called; and a delete call on that
    path is the only call after the fetch. *)
Theorem removal_requires_disabled (host : Host) (module : params) (h : history) :
  HAS_BOTO3 host = true ->
  boto3_conn host = None ->
  state module = absent ->
  (wait_for_deployed module = false ->
   forall method config_param config type_config enabled,
     supplied (resource_id module) = true ->
     removal_setup_invocations (type module) = Some (method, config_param) ->
     client host h method [("Id", param_value (resource_id module))]
     = inr config ->
     getitem config config_param = inr type_config ->
     getitem type_config "Enabled" = inr enabled ->
     truthy enabled = true ->
     main host module h
     = (Fail enabled_msg,
        [EvCall method [("Id", param_value (resource_id module))]]))
  /\ (wait_for_deployed module = false ->
      issued_deletion (snd (main host module h)) = true ->
      exists method config_param config etag delete,
        removal_setup_invocations (type module) = Some (method, config_param)
        /\ client host h method [("Id", param_value (resource_id module))]
           = inr config
        /\ disabled config config_param
        /\ getitem config "ETag" = inr etag
        /\ removal_invocations (type module) = Some delete
        /\ snd (main host module h)
           = [EvCall method [("Id", param_value (resource_id module))];
              EvCall delete [("Id", param_value (resource_id module));
                             ("IfMatch", etag)]])
  /\ (issued_deletion (snd (main host module h)) = true ->
      exists method config_param h' config,
        removal_setup_invocations (type module) = Some (method, config_param)
        /\ client host h'
             (if wait_for_deployed module then get_distribution_config
              else method)
             [("Id", param_value (resource_id module))] = inr config
        /\ disabled config config_param).
Proof.
  intros Hboto Hconn Hstate. rewrite main_absent by assumption.
  split; [| split].
  - intros Hwait method config_param config type_config enabled
      Hid Htable Hconfig Htype Henabled Htrue.
    apply wp_exact. unfold removal_setup. rewrite Hid, Htable, Hwait.
    assert (Hinv : is_invalidation (type module) = false)
      by (destruct (type module); [reflexivity .. | discriminate | reflexivity]).
    rewrite Hinv. simpl. wp_run; same_answers.
    all: try (rewrite Htrue in *; discriminate).
    split; reflexivity.
  - intros Hwait.
    change (wp (removal_setup host module)
              (fun _ evs =>
                 issued_deletion evs = true ->
                 exists method config_param config etag delete,
                   removal_setup_invocations (type module)
                   = Some (method, config_param)
                   /\ client host h method
                        [("Id", param_value (resource_id module))]
                      = inr config
                   /\ disabled config config_param
                   /\ getitem config "ETag" = inr etag
                   /\ removal_invocations (type module) = Some delete
                   /\ evs
                      = [EvCall method [("Id", param_value (resource_id module))];
                         EvCall delete [("Id", param_value (resource_id module));
                                        ("IfMatch", etag)]]) h).
    unfold removal_setup, removal, disabled. rewrite Hwait.
    destruct (type module) eqn:Htype_; simpl; wp_run; simpl; try discriminate.
    all: try intros _; apply negb_true_iff in Heqb0;
      repeat eexists; eauto.
  - apply removal_setup_disabled_only.
Qed.

(** ** The policy parameter and the required parameters *)

(** Uses what is known about a sub-computation at the current history. *)
Ltac wp_known_step :=
  rewrite ?app_nil_r;
  lazymatch goal with
  | |- wp (bind _ _) _ _ => apply wp_bind
  | |- wp _ _ _ => eapply wp_known; [eassumption | cbv beta iota]
  end.

Section Policy.

Variable host : Host.
Variable module : params.
Variable h : history.

Lemma load_policy_missing :
  supplied (policy module) = false ->
  load_policy host module h = (Return VNone, []).
Proof.
  unfold load_policy. destruct (policy module) as [text |]; [| reflexivity].
  intros ->. reflexivity.
Qed.

Lemma creation_setup_none :
  load_policy host module h = (Return VNone, []) ->
  creation_setup host module h = (Raise TypeError, []).
Proof.
  intros Hpolicy. apply wp_exact. unfold creation_setup.
  wp_known_step. wp_known_step. wp_run.
  all: match goal with
       | H : contains _ VNone = _ |- _ => simpl in H; inversion H; subst
       end.
  split; reflexivity.
Qed.



End Policy.

(** C10 -- with state present and no policy parameter (absent or empty),
    [creation_setup] reaches the membership test with [policy] still None:
    the invocation ends in an uncaught TypeError, not in [fail_json], and
    before any SDK call; the same happens when the policy parses to None. *)
Theorem missing_policy_raises (host : Host) (module : params) (h : history) :
  HAS_BOTO3 host = true ->
  boto3_conn host = None ->
  state module = present ->
  (supplied (policy module) = false ->
   load_policy host module h = (Return VNone, [])
   /\ contains "CallerReference" VNone = inl TypeError
   /\ main host module h = (Raise TypeError, []))
  /\ (load_policy host module h = (Return VNone, []) ->
      main host module h = (Raise TypeError, [])).
Proof.
  intros Hboto Hconn Hstate. rewrite main_present by assumption. split.
  - intros Hpolicy. apply (load_policy_missing host module h) in Hpolicy.
    split; [exact Hpolicy |]. split; [reflexivity |].
    apply creation_setup_none. exact Hpolicy.
  - apply creation_setup_none.
Qed.


(** C7 (amended) -- a missing required parameter makes the module fail with
    a message string before any SDK call: [resource_id] when the existing
    invalidations are about to be listed, [resource_id] when the state is
    absent, and CallerReference when the parsed policy is a JSON object
    without that key (or an array or a string that does not contain it). *)
Theorem required_parameters (host : Host) (module : params) (h : history) :
  HAS_BOTO3 host = true ->
  boto3_conn host = None ->
  (state module = present ->
   type module = invalidation ->
   supplied (resource_id module) = false ->
   forall pol caller_reference,
     load_policy host module h = (Return pol, []) ->
     getitem pol "CallerReference" = inr caller_reference ->
     main host module h = (Fail distribution_id_msg, []))
  /\ (state module = absent ->
      supplied (resource_id module) = false ->
      main host module h
      = (Fail (if is_invalidation (type module) then invalidation_removal_msg
               else resource_id_msg), []))
  /\ (state module = present ->
      forall pol,
        load_policy host module h = (Return pol, []) ->
        contains "CallerReference" pol = inr false ->
        main host module h = (Fail caller_reference_msg, [])).
Proof.
  intros Hboto Hconn. split; [| split].
  - intros Hstate Htype Hid pol caller_reference Hload Href.
    rewrite main_present by assumption.
    pose proof (getitem_contains _ _ _ Href) as Hin.
    apply wp_exact. unfold creation_setup.
    wp_known_step. wp_known_step. wp_run; same_answers; try congruence.
    rewrite Htype. simpl. unfold get_existing_invalidations. rewrite Hid.
    wp_run. split; reflexivity.
  - intros Hstate Hid. rewrite main_absent by assumption.
    unfold removal_setup. rewrite Hid.
    destruct (is_invalidation (type module)); reflexivity.
  - intros Hstate pol Hload Hin. rewrite main_present by assumption.
    apply wp_exact. unfold creation_setup.
    wp_known_step. wp_known_step. wp_run; same_answers; try congruence.
    split; reflexivity.
Qed.

(** ** The loop over the existing resources *)

Section Loop.

Variable host : Host.
Variable module : params.
Variable pol caller_reference : value.

Lemma creation_step_skip vars item h :
  listed item ->
  shares caller_reference item = false ->
  creation_step host module pol caller_reference vars item h = (Return vars, []).
Proof.
  intros [item_reference Href]. unfold shares, creation_step.
  rewrite Href. intros Hneq. rewrite bind_lift_inr, Hneq. reflexivity.
Qed.

Lemma creation_step_equal vars item h details :
  shares caller_reference item = true ->
  cmp host pol (Config item) = 0 ->
  client host h (details_invocations (type module)) (details_args module item)
  = inr details ->
  creation_step host module pol caller_reference vars item h
  = (Return {| changed := changed vars; results := Some details;
               caller_reference_exists := true |},
     [EvCall (details_invocations (type module)) (details_args module item)]).
Proof.
  unfold shares, creation_step. intros Hshare Hcmp Hdetails.
  destruct (getitem (Config item) "CallerReference") as [e | item_reference];
    [discriminate |].
  rewrite bind_lift_inr, Hshare, Hcmp. simpl.
  unfold return_resource_details, bind, call. rewrite Hdetails. reflexivity.
Qed.

Lemma creation_step_invalidation vars item h :
  shares caller_reference item = true ->
  cmp host pol (Config item) <> 0 ->
  type module = invalidation ->
  creation_step host module pol caller_reference vars item h
  = (Fail invalidation_update_msg, []).
Proof.
  unfold shares, creation_step. intros Hshare Hcmp Htype.
  destruct (getitem (Config item) "CallerReference") as [e | item_reference];
    [discriminate |].
  rewrite bind_lift_inr, Hshare, Htype.
  destruct (Z.eqb_spec (cmp host pol (Config item)) 0); [contradiction |].
  reflexivity.
Qed.

Lemma creation_step_update vars item h :
  shares caller_reference item = true ->
  cmp host pol (Config item) <> 0 ->
  is_invalidation (type module) = false ->
  creation_step host module pol caller_reference vars item h
  = (match fst (update host module pol (Id item) (ETag item) h) with
     | Return (updated, result) =>
         Return {| changed := updated; results := Some result;
                   caller_reference_exists := true |}
     | Fail msg => Fail msg
     | Raise e => Raise e
     end,
     snd (update host module pol (Id item) (ETag item) h)).
Proof.
  unfold shares, creation_step. intros Hshare Hcmp Htype.
  destruct (getitem (Config item) "CallerReference") as [e | item_reference];
    [discriminate |].
  rewrite bind_lift_inr, Hshare, Htype.
  destruct (Z.eqb_spec (cmp host pol (Config item)) 0); [contradiction |].
  unfold bind.
  destruct (update host module pol (Id item) (ETag item) h)
    as [[[updated result] | msg | e] evs]; simpl; try reflexivity.
  rewrite app_nil_r. reflexivity.
Qed.

Lemma for_fold_cons A S (f : S -> A -> M S) s x xs h s' e1 :
  f s x h = (Return s', e1) ->
  for_fold f s (x :: xs) h
  = (fst (for_fold f s' xs (h ++ e1)), e1 ++ snd (for_fold f s' xs (h ++ e1))).
Proof.
  intros Hstep.
  exact (bind_return _ _ (f s x) (fun s0 => for_fold f s0 xs) h s' e1 Hstep).
Qed.

Lemma for_fold_app A S (f : S -> A -> M S) xs ys : forall s h s' e1,
  for_fold f s xs h = (Return s', e1) ->
  for_fold f s (xs ++ ys) h
  = (fst (for_fold f s' ys (h ++ e1)), e1 ++ snd (for_fold f s' ys (h ++ e1))).
Proof.
  induction xs as [| x xs IH]; intros s h s' e1; simpl.
  - unfold ret. intros [= <- <-]. rewrite app_nil_r.
    destruct (for_fold f s ys h); reflexivity.
  - unfold bind at 1 2.
    destruct (f s x h) as [[s1 | msg | e] e0]; try discriminate.
    destruct (for_fold f s1 xs (h ++ e0)) as [o e2] eqn:Hrest.
    intros [= -> <-]. rewrite (IH _ _ _ _ Hrest). simpl.
    rewrite <- !app_assoc. reflexivity.
Qed.


(** For invalidations, an existing resource with the CallerReference of the
    policy and another config stops the loop with a failure. *)
Lemma loop_invalidation_differs existing : forall vars h,
  type module = invalidation ->
  Forall listed existing ->
  answers host get_invalidation ->
  (exists item, In item existing /\ shares caller_reference item = true
                /\ cmp host pol (Config item) <> 0) ->
  exists evs,
    for_fold (creation_step host module pol caller_reference) vars existing h
    = (Fail invalidation_update_msg, evs)
    /\ issued_mutation evs = false.
Proof.
  induction existing as [| item existing IH];
    intros vars h Htype Hlisted Hanswers (bad & Hin & Hshare & Hcmp).
  - destruct Hin.
  - inversion Hlisted as [| ? ? Hitem Hrest]; subst.
    destruct (shares caller_reference item) eqn:Hitem_share.
    + destruct (Z.eq_dec (cmp host pol (Config item)) 0) as [Hequal | Hdiffers].
      * destruct (Hanswers h (details_args module item)) as [details Hdetails].
        assert (Hdetails' : client host h (details_invocations (type module))
                              (details_args module item) = inr details)
          by (rewrite Htype; exact Hdetails).
        pose proof (creation_step_equal vars item h details Hitem_share
                      Hequal Hdetails') as Hstep.
        destruct Hin as [-> | Hin]; [contradiction |].
        destruct (IH {| changed := changed vars; results := Some details;
                        caller_reference_exists := true |}
                    (h ++ [EvCall (details_invocations (type module))
                             (details_args module item)]) Htype Hrest Hanswers)
          as (evs & Hrun & Hquiet); [exists bad; auto |].
        exists (EvCall (details_invocations (type module))
                  (details_args module item) :: evs).
        erewrite for_fold_cons by exact Hstep. rewrite Hrun. simpl.
        rewrite details_invocations_quiet. auto.
      * exists []. simpl. unfold bind.
        rewrite (creation_step_invalidation vars item h Hitem_share Hdiffers Htype).
        auto.
    + pose proof (creation_step_skip vars item h Hitem Hitem_share) as Hstep.
      destruct Hin as [-> | Hin]; [congruence |].
      destruct (IH vars (h ++ []) Htype Hrest Hanswers) as (evs & Hrun & Hquiet);
        [exists bad; auto |].
      exists evs. erewrite for_fold_cons by exact Hstep. rewrite Hrun. auto.
Qed.

End Loop.

(** ** State present, once the existing resources are listed *)

Section Present.

Variable host : Host.
Variable module : params.
Variable h : history.
Variable pol caller_reference : value.
Variable existing : list temp_object.
Variable evs0 : list event.

Hypothesis Hboto : HAS_BOTO3 host = true.
Hypothesis Hconn : boto3_conn host = None.
Hypothesis Hstate : state module = present.
Hypothesis Hload : load_policy host module h = (Return pol, []).
Hypothesis Href : getitem pol "CallerReference" = inr caller_reference.
Hypothesis Hlist :
  get_config_method host (type module) module h = (Return existing, evs0).

(** What is left of [creation_setup] after the listing: the loop and the
    creation of a resource nobody listed. *)
Lemma creation_setup_listed (Q : outcome (bool * value) -> list event -> Prop) :
  wp (for_fold (creation_step host module pol caller_reference) initial existing)
     (fun o e1 =>
        match o with
        | Return vars =>
            if caller_reference_exists vars then
              match results vars with
              | Some result => Q (Return (changed vars, result)) (evs0 ++ e1)
              | None => Q (Raise (UnboundLocalError "results")) (evs0 ++ e1)
              end
            else
              wp (creation host module pol)
                 (fun o2 e2 =>
                    match o2 with
                    | Return (created, result) =>
                        Q (Return (created, result)) (evs0 ++ e1 ++ e2)
                    | Fail msg => Q (Fail msg) (evs0 ++ e1 ++ e2)
                    | Raise e => Q (Raise e) (evs0 ++ e1 ++ e2)
                    end) ((h ++ evs0) ++ e1)
        | Fail msg => Q (Fail msg) (evs0 ++ e1)
        | Raise e => Q (Raise e) (evs0 ++ e1)
        end) (h ++ evs0) ->
  wp (main host module) Q h.
Proof.
  intros Hloop. unfold wp at 1. rewrite main_present by assumption.
  change (wp (creation_setup host module) Q h).
  pose proof (getitem_contains _ _ _ Href) as Hin.
  unfold creation_setup.
  wp_known_step. wp_known_step. wp_run; same_answers; try congruence.
  wp_known_step. rewrite ?app_nil_r.
  apply wp_bind. eapply wp_weaken; [exact Hloop |]. clear Hloop.
  intros [vars | msg | e] e1; simpl; auto.
  destruct (caller_reference_exists vars) eqn:Hexists.
  - destruct (results vars) as [result |] eqn:Hresults; intros HQ;
      wp_run; simpl; rewrite ?app_nil_r;
      try (injection Hresults as <-); try discriminate; exact HQ.
  - intros Hcreate. wp_run. eapply wp_weaken; [exact Hcreate |]. clear Hcreate.
    intros [[created result] | msg | e] e2; simpl; auto.
    intros HQ. wp_run; simpl in *; rewrite ?app_nil_r;
      try discriminate.
    match goal with H : Some _ = Some _ |- _ => injection H as <- end.
    exact HQ.
Qed.

End Present.

Lemma listing_quiet host module h o evs :
  get_config_method host (type module) module h = (o, evs) ->
  issued_mutation evs = false.
Proof.
  intros Hlist. pose proof (get_config_method_quiet host module h) as Hquiet.
  unfold wp in Hquiet. rewrite Hlist in Hquiet. exact Hquiet.
Qed.


(** For invalidations a turn of the loop never issues a create, update or
    delete call, and when it returns it has noted whether the resource has
    the CallerReference of the policy. *)
Lemma creation_step_invalidation_quiet host module pol caller_reference
  vars item h :
  type module = invalidation ->
  wp (creation_step host module pol caller_reference vars item)
     (fun o evs =>
        issued_mutation evs = false
        /\ match o with
           | Return vars' =>
               caller_reference_exists vars'
               = caller_reference_exists vars || shares caller_reference item
           | _ => True
           end) h.
Proof.
  intros Htype. unfold creation_step, shares. rewrite Htype. simpl.
  wp_run; simpl; auto.
  - apply wp_quiet; [apply return_resource_details_quiet |].
    intros [details | msg | e] e1 He1; auto. wp_run. simpl.
    rewrite app_nil_r, He1.
    match goal with H : getitem _ _ = inr _ |- _ => rewrite H end.
    match goal with H : py_eq _ _ = true |- _ => rewrite H end.
    rewrite orb_true_r. auto.
  - match goal with H : getitem _ _ = inr _ |- _ => rewrite H end.
    match goal with H : py_eq _ _ = false |- _ => rewrite H end.
    rewrite orb_false_r. auto.
Qed.

Lemma loop_invalidation_quiet host module pol caller_reference existing :
  type module = invalidation ->
  forall vars h,
    wp (for_fold (creation_step host module pol caller_reference) vars existing)
       (fun o evs =>
          issued_mutation evs = false
          /\ match o with
             | Return vars' =>
                 caller_reference_exists vars'
                 = caller_reference_exists vars
                   || existsb (shares caller_reference) existing
             | _ => True
             end) h.
Proof.
  intros Htype. induction existing as [| item existing IH]; intros vars h; simpl.
  - apply wp_ret. rewrite orb_false_r. auto.
  - apply wp_bind.
    eapply wp_weaken; [apply creation_step_invalidation_quiet; exact Htype |].
    intros [vars1 | msg | e] e1 [He1 H1]; auto.
    eapply wp_weaken; [apply IH |]. intros o e2 [He2 H2].
    rewrite issued_mutation_app, He1, He2. split; [reflexivity |].
    destruct o; auto. rewrite H2, H1, orb_assoc. reflexivity.
Qed.

(** For invalidations, once an existing resource has the CallerReference of
    the policy, no create, update or delete call is issued, however the
    invocation ends. *)
Lemma invalidation_present_quiet host module h pol caller_reference existing evs0 :
  HAS_BOTO3 host = true ->
  boto3_conn host = None ->
  state module = present ->
  type module = invalidation ->
  load_policy host module h = (Return pol, []) ->
  getitem pol "CallerReference" = inr caller_reference ->
  get_config_method host (type module) module h = (Return existing, evs0) ->
  (exists item, In item existing /\ shares caller_reference item = true) ->
  issued_mutation (snd (main host module h)) = false.
Proof.
  intros Hboto Hconn Hstate Htype Hload Href Hlist Hshared.
  apply existsb_exists in Hshared.
  change (wp (main host module) (fun _ evs => issued_mutation evs = false) h).
  apply (creation_setup_listed host module h pol caller_reference existing evs0);
    try assumption.
  eapply wp_weaken; [apply loop_invalidation_quiet; exact Htype |].
  intros o e1 [He1 Ho]. pose proof (listing_quiet _ _ _ _ _ Hlist) as He0.
  destruct o as [vars | msg | e]; rewrite ?issued_mutation_app, ?He0, ?He1; auto.
  rewrite Ho, Hshared, orb_true_r.
  destruct (results vars); reflexivity.
Qed.

(** C5 -- for invalidations the module fails with a message string and
    issues no create, update or delete call, both when the state is present
    and an existing invalidation has the CallerReference of the policy with a
    config that differs from it, and whenever the state is absent. In the
    first case no such call is issued however the invocation ends, and the
    failure is reached when the listed configs carry a CallerReference and the
    client answers [get_invalidation]. *)
Theorem invalidation_unsupported (host : Host) (module : params) (h : history) :
  HAS_BOTO3 host = true ->
  boto3_conn host = None ->
  type module = invalidation ->
  (state module = present ->
   forall pol caller_reference existing evs0,
     load_policy host module h = (Return pol, []) ->
     getitem pol "CallerReference" = inr caller_reference ->
     get_config_method host (type module) module h = (Return existing, evs0) ->
     (exists item, In item existing /\ shares caller_reference item = true
                   /\ cmp host pol (Config item) <> 0) ->
     issued_mutation (snd (main host module h)) = false
     /\ (Forall listed existing ->
         answers host get_invalidation ->
         exists evs1,
           main host module h = (Fail invalidation_update_msg, evs0 ++ evs1)))
  /\ (state module = absent ->
      main host module h = (Fail invalidation_removal_msg, [])).
Proof.
  intros Hboto Hconn Htype. split.
  - intros Hstate pol caller_reference existing evs0 Hload Href Hlist Hdiffers.
    split.
    + apply (invalidation_present_quiet host module h pol caller_reference
               existing evs0); try assumption.
      destruct Hdiffers as (item & Hin & Hshare & _). exists item. auto.
    + intros Hlisted Hanswers.
      destruct (loop_invalidation_differs host module pol caller_reference
                  existing initial (h ++ evs0) Htype Hlisted Hanswers Hdiffers)
        as (evs1 & Hrun & Hquiet).
      exists evs1. apply wp_exact.
      apply (creation_setup_listed host module h pol caller_reference
               existing evs0); try assumption.
      eapply wp_known; [exact Hrun |]. cbv beta iota. split; reflexivity.
  - intros Hstate. rewrite main_absent by assumption.
    unfold removal_setup. rewrite Htype. reflexivity.
Qed.

(** ** Waiting for the deployment *)

Section Waiting.

Variable host : Host.
Variable module : params.

Hypothesis Hwait : wait_for_deployed module = true.

Lemma creation_timeout pol h evs :
  create_times_out host module pol h evs ->
  creation host module pol h = (Fail timeout_msg, create_event module pol :: evs).
Proof.
  unfold create_times_out, create_event, creation.
  destruct (creation_invocations (type module)) as [[method config_param] result_key].
  intros (response & created & created_id & Hcall & Hcreated & Hid & Hpoll).
  apply wp_exact. rewrite Hwait. wp_run; same_answers; try congruence.
  wp_known_step. wp_run. simpl. rewrite app_nil_r. split; reflexivity.
Qed.

Lemma update_timeout pol rid etag h issued evs :
  update_times_out host module pol rid etag h issued evs ->
  update host module pol rid etag h = (Fail timeout_msg, issued :: evs).
Proof.
  unfold update_times_out, update.
  intros (method & config_param & response & -> & -> & Hcall & Hpoll).
  apply wp_exact. rewrite Hwait. wp_run; same_answers; try congruence.
  wp_known_step. wp_run. simpl. rewrite app_nil_r. split; reflexivity.
Qed.

End Waiting.

Section WaitingPaths.

Variable host : Host.
Variable module : params.
Variable h : history.

Hypothesis Hboto : HAS_BOTO3 host = true.
Hypothesis Hconn : boto3_conn host = None.
Hypothesis Hwait : wait_for_deployed module = true.

(** The creation of a resource nobody listed times out. *)
Lemma present_create_timeout pol caller_reference existing evs0 vars evs1 evs2 :
  state module = present ->
  load_policy host module h = (Return pol, []) ->
  getitem pol "CallerReference" = inr caller_reference ->
  get_config_method host (type module) module h = (Return existing, evs0) ->
  for_fold (creation_step host module pol caller_reference) initial existing
    (h ++ evs0) = (Return vars, evs1) ->
  caller_reference_exists vars = false ->
  create_times_out host module pol ((h ++ evs0) ++ evs1) evs2 ->
  main host module h
  = (Fail timeout_msg, evs0 ++ evs1 ++ create_event module pol :: evs2).
Proof.
  intros Hstate Hload Href Hlist Hloop Hexists Hcreate.
  apply (creation_timeout host module Hwait) in Hcreate.
  apply wp_exact.
  apply (creation_setup_listed host module h pol caller_reference existing evs0);
    try assumption.
  eapply wp_known; [exact Hloop |]. cbv beta iota. rewrite Hexists.
  eapply wp_known; [exact Hcreate |]. split; reflexivity.
Qed.

(** The update of a listed resource times out. *)
Lemma present_update_timeout pol caller_reference before item after evs0
  vars evs1 issued evs2 :
  state module = present ->
  load_policy host module h = (Return pol, []) ->
  getitem pol "CallerReference" = inr caller_reference ->
  get_config_method host (type module) module h
  = (Return (before ++ item :: after), evs0) ->
  for_fold (creation_step host module pol caller_reference) initial before
    (h ++ evs0) = (Return vars, evs1) ->
  shares caller_reference item = true ->
  cmp host pol (Config item) <> 0 ->
  update_times_out host module pol (Id item) (ETag item)
    ((h ++ evs0) ++ evs1) issued evs2 ->
  main host module h = (Fail timeout_msg, evs0 ++ evs1 ++ issued :: evs2).
Proof.
  intros Hstate Hload Href Hlist Hloop Hshare Hcmp Hupdate.
  assert (Htype : is_invalidation (type module) = false).
  { destruct Hupdate as (method & config_param & _ & Htable & _).
    destruct (type module); try reflexivity. discriminate. }
  apply (update_timeout host module Hwait) in Hupdate.
  apply wp_exact.
  apply (creation_setup_listed host module h pol caller_reference
           (before ++ item :: after) evs0); try assumption.
  pose proof (creation_step_update host module pol caller_reference vars item
                ((h ++ evs0) ++ evs1) Hshare Hcmp Htype) as Hstep.
  rewrite Hupdate in Hstep. simpl in Hstep.
  unfold wp. erewrite for_fold_app by exact Hloop. simpl.
  rewrite (bind_failed _ _
             (creation_step host module pol caller_reference vars item)
             (fun s' =>
                for_fold (creation_step host module pol caller_reference) s' after)
             _ _ _ Hstep).
  split; reflexivity.
Qed.

(** The update that disables a distribution before its removal times out. *)
Lemma absent_disable_timeout method config_param dist_key
  get_result dist config enabled new_policy etag issued evs :
  state module = absent ->
  supplied (resource_id module) = true ->
  disable_invocations (type module) = Some (method, config_param, dist_key) ->
  client host h method [("Id", param_value (resource_id module))]
  = inr get_result ->
  getitem get_result dist_key = inr dist ->
  getitem dist config_param = inr config ->
  getitem config "Enabled" = inr enabled ->
  truthy enabled = true ->
  setitem config "Enabled" (VBool false) = inr new_policy ->
  getitem get_result "ETag" = inr etag ->
  update_times_out host module new_policy (param_value (resource_id module)) etag
    (h ++ [EvCall method [("Id", param_value (resource_id module))]])
    issued evs ->
  main host module h
  = (Fail timeout_msg,
     EvCall method [("Id", param_value (resource_id module))] :: issued :: evs).
Proof.
  intros Hstate Hid Htable Hget Hdist Hconfig Henabled Htrue Hset Hetag Hupdate.
  apply (update_timeout host module Hwait) in Hupdate.
  rewrite main_absent by assumption. apply wp_exact.
  unfold removal_setup. rewrite Hid, Hwait.
  assert (Hinv : is_invalidation (type module) = false)
    by (destruct (type module); try reflexivity; discriminate).
  rewrite Hinv. simpl.
  assert (Hsetup : exists entry, removal_setup_invocations (type module) = Some entry)
    by (destruct (type module); try discriminate; eexists; reflexivity).
  destruct Hsetup as [[fetch fetch_param] ->].
  unfold disable_distribution. rewrite Htable.
  wp_run; same_answers; try congruence.
  wp_known_step. split; reflexivity.
Qed.

End WaitingPaths.

(** C4 -- with wait_for_deployed set, a create or an update whose call is
    answered and whose [wait_for_deployed_status] returns False ends in
    [fail_json] with the timeout message; and that failure is the outcome of
    the whole invocation, whether the call was the creation of a resource
    nobody listed, the update of a listed resource, or the update that
    disables a distribution before its removal. *)
Theorem wait_timeout_fails (host : Host) (module : params) (h : history) :
  wait_for_deployed module = true ->
  (forall pol evs,
      create_times_out host module pol h evs ->
      creation host module pol h
      = (Fail timeout_msg, create_event module pol :: evs))
  /\ (forall pol rid etag issued evs,
         update_times_out host module pol rid etag h issued evs ->
         update host module pol rid etag h = (Fail timeout_msg, issued :: evs))
  /\ (HAS_BOTO3 host = true ->
      boto3_conn host = None ->
      (forall pol caller_reference existing evs0 vars evs1 evs2,
          state module = present ->
          load_policy host module h = (Return pol, []) ->
          getitem pol "CallerReference" = inr caller_reference ->
          get_config_method host (type module) module h
          = (Return existing, evs0) ->
          for_fold (creation_step host module pol caller_reference) initial
            existing (h ++ evs0) = (Return vars, evs1) ->
          caller_reference_exists vars = false ->
          create_times_out host module pol ((h ++ evs0) ++ evs1) evs2 ->
          main host module h
          = (Fail timeout_msg, evs0 ++ evs1 ++ create_event module pol :: evs2))
      /\ (forall pol caller_reference before item after evs0 vars evs1 issued evs2,
             state module = present ->
             load_policy host module h = (Return pol, []) ->
             getitem pol "CallerReference" = inr caller_reference ->
             get_config_method host (type module) module h
             = (Return (before ++ item :: after), evs0) ->
             for_fold (creation_step host module pol caller_reference) initial
               before (h ++ evs0) = (Return vars, evs1) ->
             shares caller_reference item = true ->
             cmp host pol (Config item) <> 0 ->
             update_times_out host module pol (Id item) (ETag item)
               ((h ++ evs0) ++ evs1) issued evs2 ->
             main host module h
             = (Fail timeout_msg, evs0 ++ evs1 ++ issued :: evs2))
      /\ (forall method config_param dist_key get_result dist config enabled
                 new_policy etag issued evs,
             state module = absent ->
             supplied (resource_id module) = true ->
             disable_invocations (type module)
             = Some (method, config_param, dist_key) ->
             client host h method [("Id", param_value (resource_id module))]
             = inr get_result ->
             getitem get_result dist_key = inr dist ->
             getitem dist config_param = inr config ->
             getitem config "Enabled" = inr enabled ->
             truthy enabled = true ->
             setitem config "Enabled" (VBool false) = inr new_policy ->
             getitem get_result "ETag" = inr etag ->
             update_times_out host module new_policy
               (param_value (resource_id module)) etag
               (h ++ [EvCall method [("Id", param_value (resource_id module))]])
               issued evs ->
             main host module h
             = (Fail timeout_msg,
                EvCall method [("Id", param_value (resource_id module))]
                  :: issued :: evs))).
Proof.
  intros Hwait. split; [| split].
  - intros pol evs. apply creation_timeout. exact Hwait.
  - intros pol rid etag issued evs. apply update_timeout. exact Hwait.
  - intros Hboto Hconn. split; [| split].
    + intros pol caller_reference existing evs0 vars evs1 evs2.
      apply present_create_timeout; assumption.
    + intros pol caller_reference before item after evs0 vars evs1 issued evs2.
      apply present_update_timeout; assumption.
    + intros method config_param dist_key get_result dist config enabled
        new_policy etag issued evs.
      apply absent_disable_timeout; assumption.
Qed.

(** ** The update of a streaming distribution *)

Lemma streaming_update_mutation e : streaming_update e = true -> mutation e = true.
Proof. destruct e as [m args | secs]; [destruct m |]; simpl; congruence. Qed.

Lemma no_mutation_no_streaming_update evs :
  issued_mutation evs = false -> existsb streaming_update evs = false.
Proof.
  unfold issued_mutation.
  induction evs as [| e evs IH]; simpl; [reflexivity |].
  intros Hevs. apply orb_false_iff in Hevs. destruct Hevs as [He Hevs].
  rewrite (IH Hevs), orb_false_r.
  destruct (streaming_update e) eqn:Hbad; [| reflexivity].
  apply streaming_update_mutation in Hbad. congruence.
Qed.

Section StreamingUpdate.

Variable host : Host.
Variable module : params.

Lemma quiet_unused A (m : M A) : quiet m -> unused m.
Proof.
  intros Hm h. eapply wp_weaken; [apply Hm |].
  intros o evs. apply no_mutation_no_streaming_update.
Qed.

Ltac unused_step :=
  lazymatch goal with
  | |- wp (wait_for_deployed_status _ _ _ _) _ _ =>
      eapply wp_weaken;
      [apply (quiet_unused _ _ (wait_for_deployed_status_quiet _ _ _ _))
      | intros [[] | ? | ?] ? ?]
  | |- wp (return_resource_details _ _ _) _ _ =>
      eapply wp_weaken;
      [apply (quiet_unused _ _ (return_resource_details_quiet _ _ _))
      | intros [? | ? | ?] ? ?]
  | |- wp (get_config_method _ _ _) _ _ =>
      eapply wp_weaken;
      [apply (quiet_unused _ _ (get_config_method_quiet _ _))
      | intros [? | ? | ?] ? ?]
  | |- wp _ _ _ => wp_step
  end.

Ltac unused_done :=
  simpl; rewrite ?app_nil_r, ?existsb_app;
  repeat match goal with
         | H : existsb streaming_update _ = false |- _ => rewrite H
         end;
  simpl; auto.

Lemma creation_unused pol : unused (creation host module pol).
Proof.
  intros h. unfold creation. destruct (type module) eqn:Htype; simpl.
  all: repeat (cbv beta iota; unused_step).
  all: unused_done.
Qed.

Lemma update_unused pol rid etag : unused (update host module pol rid etag).
Proof.
  intros h. unfold update. destruct (type module) eqn:Htype; simpl.
  all: repeat (cbv beta iota; unused_step).
  all: unused_done.
Qed.

Lemma removal_unused rid etag : unused (removal host module rid etag).
Proof.
  intros h. unfold removal. destruct (type module) eqn:Htype; simpl.
  all: repeat (cbv beta iota; unused_step).
  all: unused_done.
Qed.

Lemma creation_step_unused pol caller_reference vars item :
  unused (creation_step host module pol caller_reference vars item).
Proof.
  intros h. unfold creation_step.
  repeat (cbv beta iota;
          lazymatch goal with
          | |- wp (update _ _ _ _ _) _ _ =>
              eapply wp_weaken;
              [apply update_unused | intros [[? ?] | ? | ?] ? ?]
          | |- wp _ _ _ => unused_step
          end).
  all: unused_done.
Qed.

Lemma creation_loop_unused pol caller_reference existing : forall vars,
  unused (for_fold (creation_step host module pol caller_reference) vars existing).
Proof.
  induction existing as [| item existing IH]; intros vars h; simpl.
  - apply wp_ret. reflexivity.
  - apply wp_bind. eapply wp_weaken; [apply creation_step_unused |].
    intros [vars1 | msg | e] e1 He1; auto.
    eapply wp_weaken; [apply IH |]. intros o e2 He2.
    rewrite existsb_app, He1, He2. reflexivity.
Qed.

Lemma creation_setup_unused : unused (creation_setup host module).
Proof.
  intros h. unfold creation_setup. apply wp_bind.
  unfold wp at 1. rewrite load_policy_run. simpl.
  destruct (fst (load_policy host module h)) as [pol | msg | e]; auto.
  repeat (cbv beta iota;
          lazymatch goal with
          | |- wp (for_fold _ _ _) _ _ =>
              eapply wp_weaken;
              [apply creation_loop_unused | intros [? | ? | ?] ? ?]
          | |- wp (creation _ _ _) _ _ =>
              eapply wp_weaken;
              [apply creation_unused | intros [[? ?] | ? | ?] ? ?]
          | |- wp _ _ _ => unused_step
          end).
  all: unused_done.
Qed.

Lemma disable_distribution_unused : unused (disable_distribution host module).
Proof.
  intros h. unfold disable_distribution.
  destruct (type module) eqn:Htype; simpl.
  all: repeat (cbv beta iota;
               lazymatch goal with
               | |- wp (update _ _ _ _ _) _ _ =>
                   eapply wp_weaken;
                   [apply update_unused | intros [[? ?] | ? | ?] ? ?]
               | |- wp _ _ _ => unused_step
               end).
  all: unused_done.
Qed.

Lemma removal_setup_unused : unused (removal_setup host module).
Proof.
  intros h. unfold removal_setup.
  destruct (type module) eqn:Htype; simpl.
  all: repeat (cbv beta iota;
               lazymatch goal with
               | |- wp (disable_distribution _ _) _ _ =>
                   eapply wp_weaken;
                   [apply disable_distribution_unused
                   | intros [[? ?] | ? | ?] ? ?]
               | |- wp (removal _ _ _ _) _ _ =>
                   eapply wp_weaken;
                   [apply removal_unused | intros [[? ?] | ? | ?] ? ?]
               | |- wp _ _ _ => unused_step
               end).
  all: unused_done.
Qed.

(** No invocation ever calls [update_streaming_distribution]. *)
Lemma update_streaming_distribution_unused h :
  existsb streaming_update (snd (main host module h)) = false.
Proof.
  unfold main. destruct (HAS_BOTO3 host); [| reflexivity]. simpl.
  destruct (boto3_conn host); [reflexivity |].
  destruct (state module).
  - apply creation_setup_unused.
  - apply removal_setup_unused.
Qed.

End StreamingUpdate.

(** Whatever comes of it, the first thing [update] does for a streaming
    distribution is a call of the create method, with the Id and the ETag of
    the existing resource. *)
Lemma update_streaming_creates host module pol rid etag h :
  type module = streaming ->
  exists rest,
    snd (update host module pol rid etag h)
    = EvCall create_streaming_distribution
        [("StreamingDistributionConfig", pol); ("Id", rid); ("IfMatch", etag)]
        :: rest.
Proof.
  intros Htype.
  change (wp (update host module pol rid etag)
            (fun _ evs =>
               exists rest,
                 evs = EvCall create_streaming_distribution
                         [("StreamingDistributionConfig", pol); ("Id", rid);
                          ("IfMatch", etag)] :: rest) h).
  unfold update. rewrite Htype. simpl. apply wp_bind. apply wp_call.
  - intros response _. apply wp_any. intros o e. simpl. eexists. reflexivity.
  - intros e _. eexists. reflexivity.
Qed.

(** ** Worked runs *)

Import Fixtures.

(** C1 -- a streaming distribution is listed with the CallerReference of the
    policy and another config: [update] is reached, and the call it issues
    with the Id and the ETag of that distribution is
    [create_streaming_distribution]; [update_streaming_distribution], which
    the client would have answered, is never called. *)
Theorem streaming_update_calls_create :
  get_config_method streaming_host streaming (with_policy streaming None false) []
  = (Return [ {| Config := old_config; ETag := VStr "E1"; Id := VStr "S1";
                 DomainName := Some (VStr "s1.cloudfront.net") |} ],
     [EvCall list_streaming_distributions [];
      EvCall get_streaming_distribution_config [("Id", VStr "S1")]])
  /\ shares (VStr "ref-1")
       {| Config := old_config; ETag := VStr "E1"; Id := VStr "S1";
          DomainName := Some (VStr "s1.cloudfront.net") |} = true
  /\ cmp streaming_host new_config old_config <> 0
  /\ main streaming_host (with_policy streaming None false) []
     = (Return (true, resource_answer "StreamingDistribution" "S2" "InProgress"),
        [EvCall list_streaming_distributions [];
         EvCall get_streaming_distribution_config [("Id", VStr "S1")];
         EvCall create_streaming_distribution
           [("StreamingDistributionConfig", new_config);
            ("Id", VStr "S1"); ("IfMatch", VStr "E1")]])
  /\ (forall args,
        ~ In (EvCall update_streaming_distribution args)
            (snd (main streaming_host (with_policy streaming None false) [])))
  /\ answers streaming_host update_streaming_distribution.
Proof.
  split; [reflexivity |]. split; [reflexivity |]. split; [discriminate |].
  split; [reflexivity |]. split.
  - intros args. vm_compute. intros [H | [H | [H | []]]]; discriminate.
  - intros h args. eexists. reflexivity.
Qed.



(** C7, as stated, fails: the policy parameter is the JSON text 5, which
    parses to a number; it has no CallerReference key, and the membership
    test on it ends the invocation in a TypeError. *)
Lemma required_parameters_counterexample :
  ~ (forall host module h pol,
        HAS_BOTO3 host = true ->
        boto3_conn host = None ->
        state module = present ->
        load_policy host module h = (Return pol, []) ->
        lacks_caller_reference pol ->
        exists msg, main host module h = (Fail msg, [])).
Proof.
  intros Hclaim.
  destruct (Hclaim none_listed (with_text (Some "5") distribution) [] (VInt 5))
    as (msg & Hrun); try reflexivity.
  - intros x. discriminate.
  - vm_compute in Hrun. discriminate.
Qed.


(** A creation: changed is True and a create call was issued. *)
Lemma changed_iff_mutation_witness :
  true = true
  <-> issued_mutation
        (snd (main none_listed (with_policy distribution None false) [])) = true.
Proof.
  apply (proj1 (changed_iff_mutation none_listed
                  (with_policy distribution None false) [])
           true (resource_answer "Distribution" "D3" "InProgress")).
  reflexivity.
Defined.

(** An enabled distribution is not removed. *)
Lemma removal_requires_disabled_witness :
  main one_equal (removing distribution (Some "D1") false) []
  = (Fail enabled_msg, [EvCall get_distribution_config [("Id", VStr "D1")]]).
Proof.
  apply (proj1 (removal_requires_disabled one_equal
                  (removing distribution (Some "D1") false) []
                  eq_refl eq_refl eq_refl)
           eq_refl get_distribution_config "DistributionConfig"
           (config_answer "DistributionConfig" new_config "E1")
           new_config (VBool true));
    reflexivity.
Defined.

(** No policy parameter at all. *)
Lemma missing_policy_raises_witness :
  main none_listed (with_text None distribution) [] = (Raise TypeError, []).
Proof.
  apply (proj1 (missing_policy_raises none_listed (with_text None distribution) []
                  eq_refl eq_refl eq_refl)).
  reflexivity.
Defined.


(** An invalidation without resource_id, a removal without resource_id, and
    a policy without CallerReference. *)
Lemma required_parameters_witness :
  main none_listed (with_policy invalidation None false) []
  = (Fail distribution_id_msg, [])
  /\ main none_listed (removing distribution None false) []
     = (Fail resource_id_msg, [])
  /\ main none_listed (with_text (Some comment_only) distribution) []
     = (Fail caller_reference_msg, []).
Proof.
  split; [| split].
  - apply (proj1 (required_parameters none_listed
                    (with_policy invalidation None false) [] eq_refl eq_refl)
             eq_refl eq_refl eq_refl new_config (VStr "ref-1"));
      reflexivity.
  - apply (proj1 (proj2 (required_parameters none_listed
                           (removing distribution None false) []
                           eq_refl eq_refl)));
      reflexivity.
  - apply (proj2 (proj2 (required_parameters none_listed
                           (with_text (Some comment_only) distribution) []
                           eq_refl eq_refl))
             eq_refl (VDict [("Comment", VStr "new")]));
      reflexivity.
Defined.


(** An invalidation is listed with the CallerReference of the policy and
    another config; and an invalidation is to be removed. *)
Lemma invalidation_unsupported_witness :
  (issued_mutation
     (snd (main invalidation_host (with_policy invalidation (Some "D1") false) []))
   = false
   /\ exists evs1,
        main invalidation_host (with_policy invalidation (Some "D1") false) []
        = (Fail invalidation_update_msg,
           [EvCall list_invalidations [("DistributionId", VStr "D1")];
            EvCall get_invalidation
              [("DistributionId", VStr "D1"); ("Id", VStr "I1")]] ++ evs1))
  /\ main invalidation_host (removing invalidation (Some "I1") false) []
     = (Fail invalidation_removal_msg, []).
Proof.
  split.
  - destruct (proj1 (invalidation_unsupported invalidation_host
                       (with_policy invalidation (Some "D1") false) []
                       eq_refl eq_refl eq_refl)
                eq_refl new_config (VStr "ref-1")
                [ {| Config := old_config; ETag := VStr ""; Id := VStr "I1";
                     DomainName := None |} ]
                [EvCall list_invalidations [("DistributionId", VStr "D1")];
                 EvCall get_invalidation
                   [("DistributionId", VStr "D1"); ("Id", VStr "I1")]]
                eq_refl eq_refl eq_refl)
      as [Hquiet Hfail].
    + eexists. split; [left; reflexivity |]. split; [reflexivity | discriminate].
    + split; [exact Hquiet |]. apply Hfail.
      * repeat constructor. eexists. reflexivity.
      * intros h args. eexists. reflexivity.
  - apply (proj2 (invalidation_unsupported invalidation_host
                    (removing invalidation (Some "I1") false) []
                    eq_refl eq_refl eq_refl)).
    reflexivity.
Defined.

(** A distribution is created and is still in progress after all its polls. *)
Lemma wait_timeout_fails_witness :
  main none_listed (with_policy distribution None true) []
  = (Fail timeout_msg,
     [EvCall list_distributions []] ++ []
     ++ create_event (with_policy distribution None true) new_config
     :: rounds (with_policy distribution None true) [("Id", VStr "D3")] 30).
Proof.
  apply (proj1 (proj2 (proj2 (wait_timeout_fails none_listed
                                (with_policy distribution None true) [] eq_refl))
                  eq_refl eq_refl)
           new_config (VStr "ref-1") [] [EvCall list_distributions []]
           initial []);
    try reflexivity.
  exists (resource_answer "Distribution" "D3" "InProgress"),
    (VDict [("Id", VStr "D3"); ("Status", VStr "InProgress")]), (VStr "D3").
  repeat split; reflexivity.
Defined.

(** ** The listing functions *)

(** A [for_each] loop whose turns each establish [P] between the element and
    the result, with events that the result determines. *)
Lemma for_each_spec A B (f : A -> M B) (P : A -> B -> Prop)
  (E : B -> list event) xs :
  (forall x h,
      wp (f x) (fun o e =>
                  match o with
                  | Return y => P x y /\ e = E y
                  | _ => True
                  end) h) ->
  forall h,
    wp (for_each f xs)
       (fun o evs =>
          match o with
          | Return ys => Forall2 P xs ys /\ evs = flat_map E ys
          | _ => True
          end) h.
Proof.
  intros Hf. induction xs as [| x xs IH]; intros h; simpl.
  - apply wp_ret. split; [constructor | reflexivity].
  - apply wp_bind. eapply wp_weaken; [apply Hf |].
    intros [y | msg | e] e1; auto. intros [Hy ->].
    apply wp_bind. eapply wp_weaken; [apply IH |].
    intros [ys | msg | e] e2; auto. intros [Hys ->].
    apply wp_ret. split; [constructor; assumption |].
    simpl. rewrite app_nil_r. reflexivity.
Qed.

(** A [for_each] loop returns when each of its turns does, whatever was done
    before. *)
Lemma for_each_returns A B (f : A -> M B) xs :
  (forall x, In x xs -> forall h, exists y e, f x h = (Return y, e)) ->
  forall h, exists ys evs, for_each f xs h = (Return ys, evs).
Proof.
  induction xs as [| x xs IH]; intros Hf h; simpl.
  - eexists. eexists. reflexivity.
  - destruct (Hf x (or_introl eq_refl) h) as (y & e1 & Hy).
    destruct (IH (fun x' Hin => Hf x' (or_intror Hin)) (h ++ e1))
      as (ys & e2 & Hys).
    exists (y :: ys), (e1 ++ e2 ++ []).
    unfold bind at 1. rewrite Hy. unfold bind at 1. rewrite Hys. reflexivity.
Qed.

Section Listing.

Variable host : Host.
Variable module : params.

(** The body of the loop of [get_existing_distributions]. *)
Lemma distribution_turn dist h :
  wp (dist_id <- lift (getitem dist "Id") ;;
      config <- call host get_distribution_config [("Id", dist_id)] ;;
      dist_config <- lift (getitem config "DistributionConfig") ;;
      etag <- lift (getitem config "ETag") ;;
      dist_id <- lift (getitem dist "Id") ;;
      domain_name <- lift (getitem dist "DomainName") ;;
      ret {| Config := dist_config; ETag := etag; Id := dist_id;
             DomainName := Some domain_name |})
     (fun o e =>
        match o with
        | Return item => recorded_distribution host dist item /\ e = config_fetch item
        | _ => True
        end) h.
Proof.
  wp_run; auto. same_answers. unfold recorded_distribution, config_fetch. simpl.
  split; [| reflexivity].
  split; [assumption |]. split; [eexists; split; [eassumption | reflexivity] |].
  eexists. eexists. split; [eassumption |]. split; assumption.
Qed.

Lemma distribution_turn_returns dist h :
  (exists dist_id domain_name,
      getitem dist "Id" = inr dist_id
      /\ getitem dist "DomainName" = inr domain_name
      /\ forall h', exists config dist_config etag,
           client host h' get_distribution_config [("Id", dist_id)] = inr config
           /\ getitem config "DistributionConfig" = inr dist_config
           /\ getitem config "ETag" = inr etag) ->
  exists item e,
    (dist_id <- lift (getitem dist "Id") ;;
     config <- call host get_distribution_config [("Id", dist_id)] ;;
     dist_config <- lift (getitem config "DistributionConfig") ;;
     etag <- lift (getitem config "ETag") ;;
     dist_id <- lift (getitem dist "Id") ;;
     domain_name <- lift (getitem dist "DomainName") ;;
     ret {| Config := dist_config; ETag := etag; Id := dist_id;
            DomainName := Some domain_name |}) h = (Return item, e).
Proof.
  intros (dist_id & domain_name & Hid & Hname & Hconfig).
  destruct (Hconfig h) as (config & dist_config & etag & Hcall & Hc & He).
  exists {| Config := dist_config; ETag := etag; Id := dist_id;
            DomainName := Some domain_name |},
    [EvCall get_distribution_config [("Id", dist_id)]].
  apply wp_exact.
  wp_run; rewrite ?app_nil_r in *; same_answers; try congruence.
  simpl. split; reflexivity.
Qed.

End Listing.

(** X1 -- when the client answers [list_distributions] with a list of items,
    [get_existing_distributions] returns, if at all, one record per item and
    in their order, each with the Id and DomainName of the item and the config
    and ETag fetched for that Id, after one list call and one config fetch per
    item; and it does return when every item has an Id and a DomainName and
    the client answers the fetches with a config and an ETag. *)
Theorem get_existing_distributions_records
  (host : Host) (module : params) (h : history)
  (response dist_list items : value) (dists : list value) :
  client host h list_distributions [] = inr response ->
  getitem response "DistributionList" = inr dist_list ->
  getitem dist_list "Items" = inr items ->
  iterate items = inr dists ->
  (forall existing evs,
      get_existing_distributions host module h = (Return existing, evs) ->
      Forall2 (recorded_distribution host) dists existing
      /\ evs = EvCall list_distributions [] :: flat_map config_fetch existing)
  /\ ((forall dist, In dist dists ->
          exists dist_id domain_name,
            getitem dist "Id" = inr dist_id
            /\ getitem dist "DomainName" = inr domain_name
            /\ forall h', exists config dist_config etag,
                 client host h' get_distribution_config [("Id", dist_id)]
                 = inr config
                 /\ getitem config "DistributionConfig" = inr dist_config
                 /\ getitem config "ETag" = inr etag) ->
      exists existing evs,
        get_existing_distributions host module h = (Return existing, evs)).
Proof.
  intros Hlist Hdl Hitems Hiter.
  pose proof (getitem_contains _ _ _ Hitems) as Hin. split.
  - intros existing evs Hrun.
    assert (Hwp : wp (get_existing_distributions host module)
                    (fun o evs =>
                       match o with
                       | Return existing =>
                           Forall2 (recorded_distribution host) dists existing
                           /\ evs = EvCall list_distributions []
                                      :: flat_map config_fetch existing
                       | _ => True
                       end) h).
    { unfold get_existing_distributions. wp_run; auto; same_answers;
        try congruence.
      eapply wp_weaken;
        [apply (for_each_spec _ _ _ (recorded_distribution host) config_fetch);
         apply distribution_turn |].
      intros [ys | msg | e] e2; auto. intros [Hys ->]. auto. }
    unfold wp in Hwp. rewrite Hrun in Hwp. exact Hwp.
  - intros Hdists.
    assert (Hwp : wp (get_existing_distributions host module)
                    (fun o _ => exists existing, o = Return existing) h).
    { unfold get_existing_distributions. wp_run; same_answers; try congruence.
      match goal with
      | |- wp (for_each ?f _) _ ?h0 =>
          destruct (for_each_returns _ _ f dists
                      (fun dist Hd h' =>
                         distribution_turn_returns host dist h' (Hdists dist Hd))
                      h0) as (ys & e2 & Hrun)
      end.
      eapply wp_known; [exact Hrun |]. eexists. reflexivity. }
    unfold wp in Hwp.
    destruct (get_existing_distributions host module h) as [o evs].
    simpl in Hwp. destruct Hwp as [existing ->].
    eexists. eexists. reflexivity.
Qed.

(** Two distributions are listed: two records, after the list call and one
    config fetch each. *)
Lemma get_existing_distributions_records_witness :
  exists existing evs,
    get_existing_distributions equal_then_different
      (with_policy distribution None false) [] = (Return existing, evs)
    /\ Forall2 (recorded_distribution equal_then_different)
         [summary "D1" "d1.cloudfront.net"; summary "D2" "d2.cloudfront.net"]
         existing
    /\ evs = EvCall list_distributions [] :: flat_map config_fetch existing.
Proof.
  destruct (get_existing_distributions_records equal_then_different
              (with_policy distribution None false) []
              (listing "DistributionList"
                 [summary "D1" "d1.cloudfront.net";
                  summary "D2" "d2.cloudfront.net"])
              (VDict [("Items", VList [summary "D1" "d1.cloudfront.net";
                                       summary "D2" "d2.cloudfront.net"])])
              (VList [summary "D1" "d1.cloudfront.net";
                      summary "D2" "d2.cloudfront.net"])
              [summary "D1" "d1.cloudfront.net"; summary "D2" "d2.cloudfront.net"]
              eq_refl eq_refl eq_refl eq_refl) as [Hrecords Hreturns].
  destruct Hreturns as (existing & evs & Hrun).
  - intros dist [<- | [<- | []]].
    + exists (VStr "D1"), (VStr "d1.cloudfront.net").
      split; [reflexivity |]. split; [reflexivity |]. intros h'.
      do 3 eexists. split; [reflexivity |]. split; reflexivity.
    + exists (VStr "D2"), (VStr "d2.cloudfront.net").
      split; [reflexivity |]. split; [reflexivity |]. intros h'.
      do 3 eexists. split; [reflexivity |]. split; reflexivity.
  - exists existing, evs. split; [exact Hrun |]. apply Hrecords. exact Hrun.
Defined.

(** ** A list answer without Items *)

(** X2 -- when the answer to the list call has a dict without the key Items
    under its list key, the listing functions for distributions, origin
    access identities and invalidations return no resource after that one
    call, while the one for streaming distributions, which reads Items
    unguarded, raises KeyError('Items'). *)
Theorem listing_without_items
  (host : Host) (module : params) (h : history)
  (method : api_method) (args : kwargs) (key : string)
  (response : value) (d : list (string * value)) :
  list_invocation module = (method, args, key) ->
  (type module = invalidation -> supplied (resource_id module) = true) ->
  client host h method args = inr response ->
  getitem response key = inr (VDict d) ->
  dict_get "Items" d = None ->
  get_config_method host (type module) module h
  = (match type module with
     | streaming => Raise (KeyError "Items")
     | _ => Return []
     end, [EvCall method args]).
Proof.
  unfold list_invocation. intros Htable Hid Hcall Hkey Hitems.
  apply wp_exact.
  destruct (type module) eqn:Htype; injection Htable as <- <- <-; simpl.
  - unfold get_existing_distributions.
    wp_run; rewrite ?app_nil_r in *; same_answers; simpl in *;
      rewrite ?Hitems in *;
      try congruence; try discriminate. split; reflexivity.
  - unfold get_existing_origin_access_id.
    wp_run; rewrite ?app_nil_r in *; same_answers; simpl in *;
      rewrite ?Hitems in *;
      try congruence; try discriminate. split; reflexivity.
  - unfold get_existing_invalidations. rewrite (Hid eq_refl).
    wp_run; rewrite ?app_nil_r in *; same_answers; simpl in *;
      rewrite ?Hitems in *;
      try congruence; try discriminate. split; reflexivity.
  - unfold get_existing_streaming_distributions.
    wp_run; rewrite ?app_nil_r in *; same_answers; simpl in *;
      rewrite ?Hitems in *;
      try congruence; try discriminate.
    split; [congruence | reflexivity].
Qed.

(** An account without distributions and one without streaming
    distributions. *)
Lemma listing_without_items_witness :
  get_config_method Samples.empty_account distribution
    (with_policy distribution None false) []
  = (Return [], [EvCall list_distributions []])
  /\ get_config_method Samples.empty_account streaming
       (with_policy streaming None false) []
     = (Raise (KeyError "Items"), [EvCall list_streaming_distributions []]).
Proof.
  split.
  - apply (listing_without_items Samples.empty_account
             (with_policy distribution None false) []
             list_distributions [] "DistributionList"
             (Samples.bare_listing "DistributionList")
             [("Quantity", VInt 0)]); try reflexivity.
    discriminate.
  - apply (listing_without_items Samples.empty_account
             (with_policy streaming None false) []
             list_streaming_distributions [] "StreamingDistributionList"
             (Samples.bare_listing "StreamingDistributionList")
             [("Quantity", VInt 0)]); try reflexivity.
    discriminate.
Defined.

(** X3 -- with state present and type streaming, when the answer to
    [list_streaming_distributions] carries no Items the module ends in an
    uncaught KeyError('Items') right after that call: no streaming
    distribution is created. *)
Theorem streaming_without_items_raises
  (host : Host) (module : params) (h : history)
  (pol caller_reference response : value) (d : list (string * value)) :
  HAS_BOTO3 host = true ->
  boto3_conn host = None ->
  state module = present ->
  type module = streaming ->
  load_policy host module h = (Return pol, []) ->
  getitem pol "CallerReference" = inr caller_reference ->
  client host h list_streaming_distributions [] = inr response ->
  getitem response "StreamingDistributionList" = inr (VDict d) ->
  dict_get "Items" d = None ->
  main host module h
  = (Raise (KeyError "Items"), [EvCall list_streaming_distributions []]).
Proof.
  intros Hboto Hconn Hstate Htype Hload Href Hcall Hkey Hitems.
  rewrite main_present by assumption.
  pose proof (getitem_contains _ _ _ Href) as Hin.
  apply wp_exact. unfold creation_setup. rewrite Htype. simpl.
  unfold get_existing_streaming_distributions.
  wp_known_step. wp_known_step.
  wp_run; rewrite ?app_nil_r in *; same_answers; simpl in *;
    rewrite ?Hitems in *; try congruence; try discriminate.
  split; [congruence | reflexivity].
Qed.

(** The first streaming distribution of an account. *)
Lemma streaming_without_items_raises_witness :
  main Samples.empty_account (with_policy streaming None false) []
  = (Raise (KeyError "Items"), [EvCall list_streaming_distributions []]).
Proof.
  apply (streaming_without_items_raises Samples.empty_account
           (with_policy streaming None false) [] new_config (VStr "ref-1")
           (Samples.bare_listing "StreamingDistributionList")
           [("Quantity", VInt 0)]); reflexivity.
Defined.

(** ** The creation of a resource nobody listed *)

(** The loop passes over the resources that have another CallerReference. *)
Lemma loop_none_shared host module pol caller_reference existing :
  Forall listed existing ->
  existsb (shares caller_reference) existing = false ->
  forall vars h,
    for_fold (creation_step host module pol caller_reference) vars existing h
    = (Return vars, []).
Proof.
  induction existing as [| item existing IH]; intros Hlisted Hnone vars h.
  - reflexivity.
  - inversion Hlisted as [| ? ? Hitem Hrest]; subst.
    simpl in Hnone. apply orb_false_iff in Hnone. destruct Hnone as [Hshare Hnone].
    erewrite for_fold_cons
      by exact (creation_step_skip host module pol caller_reference vars item h
                  Hitem Hshare).
    rewrite (IH Hrest Hnone). reflexivity.
Qed.

(** X4 -- with state present, when no listed resource has the
    CallerReference of the policy the module issues exactly one create call
    after the listing, with the policy under the config parameter of the
    type, and hands back changed=True with the answer. Without
    wait_for_deployed that is all; with it the module then polls the
    resource whose Id the answer carries, and hands the answer back once
    the wait returns True. *)
Theorem first_creation
  (host : Host) (module : params) (h : history)
  (pol caller_reference : value) (existing : list temp_object)
  (evs0 : list event)
  (method : api_method) (config_param result_key : string) (response : value) :
  HAS_BOTO3 host = true ->
  boto3_conn host = None ->
  state module = present ->
  load_policy host module h = (Return pol, []) ->
  getitem pol "CallerReference" = inr caller_reference ->
  get_config_method host (type module) module h = (Return existing, evs0) ->
  Forall listed existing ->
  existsb (shares caller_reference) existing = false ->
  creation_invocations (type module) = (method, config_param, result_key) ->
  client host (h ++ evs0) method ((config_param, pol) :: distribution_arg module)
  = inr response ->
  (wait_for_deployed module = false ->
   main host module h
   = (Return (true, json_roundtrip response),
      evs0 ++ [EvCall method ((config_param, pol) :: distribution_arg module)]))
  /\ (wait_for_deployed module = true ->
      forall created created_id evs2,
        getitem (json_roundtrip response) result_key = inr created ->
        getitem created "Id" = inr created_id ->
        wait_for_deployed_status host module default_max_retries
          (distribution_arg module ++ [("Id", created_id)])
          (h ++ evs0
             ++ [EvCall method ((config_param, pol) :: distribution_arg module)])
        = (Return true, evs2) ->
        main host module h
        = (Return (true, json_roundtrip response),
           evs0 ++ EvCall method ((config_param, pol) :: distribution_arg module)
                :: evs2)).
Proof.
  intros Hboto Hconn Hstate Hload Href Hlist Hlisted Hnone Htable Hcall.
  pose proof (loop_none_shared host module pol caller_reference existing
                Hlisted Hnone initial (h ++ evs0)) as Hloop.
  split.
  - intros Hwait. apply wp_exact.
    apply (creation_setup_listed host module h pol caller_reference existing evs0);
      try assumption.
    eapply wp_known; [exact Hloop |]. cbv beta iota. simpl.
    unfold creation. rewrite Htable, Hwait.
    wp_run; rewrite ?app_nil_r in *; same_answers; try congruence.
    simpl. rewrite ?app_nil_r. split; reflexivity.
  - intros Hwait created created_id evs2 Hcreated Hid Hpoll. apply wp_exact.
    apply (creation_setup_listed host module h pol caller_reference existing evs0);
      try assumption.
    eapply wp_known; [exact Hloop |]. cbv beta iota. simpl.
    unfold creation. rewrite Htable, Hwait.
    wp_run; rewrite ?app_nil_r in *; same_answers; try congruence.
    eapply wp_known; [rewrite <- ?app_assoc; exact Hpoll |]. cbv beta iota.
    wp_run. simpl. rewrite ?app_nil_r. split; reflexivity.
Qed.

(** A first distribution, created without waiting, and one that is deployed
    after two sleeps. *)
Lemma first_creation_witness :
  main none_listed (with_policy distribution None false) []
  = (Return (true, resource_answer "Distribution" "D3" "InProgress"),
     [EvCall list_distributions [];
      EvCall create_distribution [("DistributionConfig", new_config)]])
  /\ main settling_host (with_policy distribution None true) []
     = (Return (true, resource_answer "Distribution" "D3" "InProgress"),
        [EvCall list_distributions [];
         EvCall create_distribution [("DistributionConfig", new_config)];
         EvCall get_distribution [("Id", VStr "D3")]; EvSleep 30;
         EvCall get_distribution [("Id", VStr "D3")]; EvSleep 30;
         EvCall get_distribution [("Id", VStr "D3")]]).
Proof.
  split.
  - apply (proj1 (first_creation none_listed
                    (with_policy distribution None false) []
                    new_config (VStr "ref-1") [] [EvCall list_distributions []]
                    create_distribution "DistributionConfig" "Distribution"
                    (resource_answer "Distribution" "D3" "InProgress")
                    eq_refl eq_refl eq_refl eq_refl eq_refl eq_refl
                    (Forall_nil _) eq_refl eq_refl eq_refl)).
    reflexivity.
  - apply (proj2 (first_creation settling_host
                    (with_policy distribution None true) []
                    new_config (VStr "ref-1") [] [EvCall list_distributions []]
                    create_distribution "DistributionConfig" "Distribution"
                    (resource_answer "Distribution" "D3" "InProgress")
                    eq_refl eq_refl eq_refl eq_refl eq_refl eq_refl
                    (Forall_nil _) eq_refl eq_refl eq_refl)
             eq_refl
             (VDict [("Id", VStr "D3"); ("Status", VStr "InProgress")])
             (VStr "D3")); reflexivity.
Defined.

(** ** The update of a listed resource *)

(** [update] without wait_for_deployed: one call, and changed is True. *)
Lemma update_run host module pol rid etag h method config_param response :
  update_invocations (type module) = Some (method, config_param) ->
  wait_for_deployed module = false ->
  client host h method [(config_param, pol); ("Id", rid); ("IfMatch", etag)]
  = inr response ->
  update host module pol rid etag h
  = (Return (true, json_roundtrip response),
     [EvCall method [(config_param, pol); ("Id", rid); ("IfMatch", etag)]]).
Proof.
  intros Htable Hwait Hcall. apply wp_exact. unfold update.
  rewrite Htable, Hwait.
  wp_run; rewrite ?app_nil_r in *; same_answers; try congruence.
  simpl. split; reflexivity.
Qed.

(** X5 -- with state present and without wait_for_deployed, when exactly one
    listed resource has the CallerReference of the policy and its config
    does not compare equal to the policy, the module issues one call after
    the listing, the one the update table has for the type, with the policy,
    the Id of that resource and its listed ETag as IfMatch, and hands back
    changed=True with the answer. *)
Theorem differing_config_is_updated
  (host : Host) (module : params) (h : history)
  (pol caller_reference : value) (before after : list temp_object)
  (item : temp_object) (evs0 : list event)
  (method : api_method) (config_param : string) (response : value) :
  HAS_BOTO3 host = true ->
  boto3_conn host = None ->
  state module = present ->
  wait_for_deployed module = false ->
  load_policy host module h = (Return pol, []) ->
  getitem pol "CallerReference" = inr caller_reference ->
  get_config_method host (type module) module h
  = (Return (before ++ item :: after), evs0) ->
  Forall listed before ->
  Forall listed after ->
  existsb (shares caller_reference) before = false ->
  existsb (shares caller_reference) after = false ->
  shares caller_reference item = true ->
  cmp host pol (Config item) <> 0 ->
  update_invocations (type module) = Some (method, config_param) ->
  client host (h ++ evs0) method
    [(config_param, pol); ("Id", Id item); ("IfMatch", ETag item)]
  = inr response ->
  main host module h
  = (Return (true, json_roundtrip response),
     evs0 ++ [EvCall method
                [(config_param, pol); ("Id", Id item); ("IfMatch", ETag item)]]).
Proof.
  intros Hboto Hconn Hstate Hwait Hload Href Hlist Hbefore Hafter
    Hnone_before Hnone_after Hshare Hcmp Htable Hcall.
  assert (Htype : is_invalidation (type module) = false)
    by (destruct (type module); try reflexivity; discriminate).
  pose proof (loop_none_shared host module pol caller_reference before
                Hbefore Hnone_before initial (h ++ evs0)) as Hloop.
  pose proof (creation_step_update host module pol caller_reference initial item
                ((h ++ evs0) ++ []) Hshare Hcmp Htype) as Hstep.
  rewrite app_nil_r in Hstep.
  rewrite (update_run host module pol (Id item) (ETag item) (h ++ evs0)
             method config_param response Htable Hwait Hcall) in Hstep.
  simpl in Hstep.
  apply wp_exact.
  apply (creation_setup_listed host module h pol caller_reference
           (before ++ item :: after) evs0); try assumption.
  unfold wp. erewrite for_fold_app by exact Hloop. rewrite app_nil_r.
  erewrite for_fold_cons by exact Hstep.
  rewrite (loop_none_shared host module pol caller_reference after
             Hafter Hnone_after).
  simpl. split; reflexivity.
Qed.

(** The second of two listed distributions has the CallerReference of the
    policy and another config. *)
Lemma differing_config_is_updated_witness :
  main Samples.other_then_different (with_policy distribution None false) []
  = (Return (true, resource_answer "Distribution" "D2" "InProgress"),
     [EvCall list_distributions [];
      EvCall get_distribution_config [("Id", VStr "D4")];
      EvCall get_distribution_config [("Id", VStr "D2")];
      EvCall update_distribution
        [("DistributionConfig", new_config); ("Id", VStr "D2");
         ("IfMatch", VStr "E2")]]).
Proof.
  apply (differing_config_is_updated Samples.other_then_different
           (with_policy distribution None false) []
           new_config (VStr "ref-1")
           [ {| Config := Samples.other_config; ETag := VStr "E4";
                Id := VStr "D4";
                DomainName := Some (VStr "d4.cloudfront.net") |} ]
           []
           {| Config := old_config; ETag := VStr "E2"; Id := VStr "D2";
              DomainName := Some (VStr "d2.cloudfront.net") |}
           [EvCall list_distributions [];
            EvCall get_distribution_config [("Id", VStr "D4")];
            EvCall get_distribution_config [("Id", VStr "D2")]]
           update_distribution "DistributionConfig"
           (resource_answer "Distribution" "D2" "InProgress"));
    try reflexivity.
  - repeat constructor. eexists. reflexivity.
  - constructor.
  - discriminate.
Defined.

(** ** Removal with and without wait_for_deployed *)

(** X6 -- with state absent, type origin_access_id, a resource_id and
    wait_for_deployed, the module ends in an uncaught
    KeyError('origin_access_id') before any call: the table of
    [disable_distribution] has no entry for origin access identities. *)
Theorem origin_access_id_wait_removal_raises
  (host : Host) (module : params) (h : history) :
  HAS_BOTO3 host = true ->
  boto3_conn host = None ->
  state module = absent ->
  type module = origin_access_id ->
  supplied (resource_id module) = true ->
  wait_for_deployed module = true ->
  main host module h = (Raise (KeyError "origin_access_id"), []).
Proof.
  intros Hboto Hconn Hstate Htype Hid Hwait.
  rewrite main_absent by assumption.
  unfold removal_setup, disable_distribution. rewrite Htype, Hid, Hwait.
  reflexivity.
Qed.

(** The origin access identity O1 is to be removed once it is disabled. *)
Lemma origin_access_id_wait_removal_raises_witness :
  main none_listed (removing origin_access_id (Some "O1") true) []
  = (Raise (KeyError "origin_access_id"), []).
Proof.
  apply (origin_access_id_wait_removal_raises none_listed
           (removing origin_access_id (Some "O1") true) []);
    reflexivity.
Defined.

(** X7 -- with state absent, type streaming and wait_for_deployed, the
    config the module reads StreamingDistributionConfig from is the answer of
    [get_distribution_config], the call [disable_distribution] ends with
    for every type. When the answers of that method carry no
    StreamingDistributionConfig, no delete call is issued and the module
    does not exit normally. *)
Theorem streaming_wait_removal_never_deletes
  (host : Host) (module : params) (h : history) :
  HAS_BOTO3 host = true ->
  boto3_conn host = None ->
  state module = absent ->
  type module = streaming ->
  wait_for_deployed module = true ->
  (forall h' config,
      client host h' get_distribution_config
        [("Id", param_value (resource_id module))] = inr config ->
      forall x, getitem config "StreamingDistributionConfig" <> inr x) ->
  issued_deletion (snd (main host module h)) = false
  /\ forall r, fst (main host module h) <> Return r.
Proof.
  intros Hboto Hconn Hstate Htype Hwait Hkey.
  rewrite main_absent by assumption.
  change (wp (removal_setup host module)
            (fun o evs => issued_deletion evs = false
                          /\ forall r, o <> Return r) h).
  unfold removal_setup. rewrite Htype, Hwait. simpl.
  destruct (supplied (resource_id module)); simpl;
    [| apply wp_fail_json; split; [reflexivity | discriminate]].
  apply wp_bind. apply wp_bind.
  eapply wp_weaken; [apply disable_distribution_keeps |].
  intros [[achieved config] | msg | e] e1 [Hkeeps Hconfig];
    try (split; [exact Hkeeps | discriminate]).
  destruct Hconfig as [h' Hconfig].
  wp_run; simpl; rewrite ?app_nil_r; try (split; [exact Hkeeps | discriminate]).
  all: exfalso; eapply (Hkey h' config Hconfig); eassumption.
Qed.

(** The disabled and deployed streaming distribution S5 is not removed. *)
Lemma streaming_wait_removal_never_deletes_witness :
  issued_deletion
    (snd (main Samples.disabled_streaming_host
            (removing streaming (Some "S5") true) [])) = false
  /\ forall r,
       fst (main Samples.disabled_streaming_host
              (removing streaming (Some "S5") true) []) <> Return r.
Proof.
  apply (streaming_wait_removal_never_deletes Samples.disabled_streaming_host
           (removing streaming (Some "S5") true) []); try reflexivity.
  intros h' config Hconfig x. injection Hconfig as <-. discriminate.
Defined.

(** X8 -- with state absent and without wait_for_deployed, when the fetched
    config of the resource has an Enabled field that is not true, the module
    issues the delete call of the type with the resource_id and the ETag of
    the fetched config as IfMatch, and hands back changed=True with the
    answer: two calls in all. *)
Theorem disabled_resource_is_removed
  (host : Host) (module : params) (h : history)
  (method delete : api_method) (config_param : string)
  (config type_config enabled etag response : value) :
  HAS_BOTO3 host = true ->
  boto3_conn host = None ->
  state module = absent ->
  wait_for_deployed module = false ->
  supplied (resource_id module) = true ->
  removal_setup_invocations (type module) = Some (method, config_param) ->
  removal_invocations (type module) = Some delete ->
  client host h method [("Id", param_value (resource_id module))] = inr config ->
  getitem config config_param = inr type_config ->
  getitem type_config "Enabled" = inr enabled ->
  truthy enabled = false ->
  getitem config "ETag" = inr etag ->
  client host (h ++ [EvCall method [("Id", param_value (resource_id module))]])
    delete [("Id", param_value (resource_id module)); ("IfMatch", etag)]
  = inr response ->
  main host module h
  = (Return (true, json_roundtrip response),
     [EvCall method [("Id", param_value (resource_id module))];
      EvCall delete [("Id", param_value (resource_id module));
                     ("IfMatch", etag)]]).
Proof.
  intros Hboto Hconn Hstate Hwait Hid Htable Hdelete Hcall Hconfig Henabled
    Hfalse Hetag Hremove.
  rewrite main_absent by assumption.
  assert (Hinv : is_invalidation (type module) = false)
    by (destruct (type module); try reflexivity; discriminate).
  apply wp_exact. unfold removal_setup, removal.
  rewrite Hinv, Hid, Htable, Hwait, Hdelete. simpl.
  wp_run; rewrite ?app_nil_r in *; same_answers;
    try (rewrite Hfalse in *; discriminate); try congruence.
  simpl. split; reflexivity.
Qed.

(** The distribution D5 is disabled. *)
Lemma disabled_resource_is_removed_witness :
  main Samples.disabled_host (removing distribution (Some "D5") false) []
  = (Return (true, VDict []),
     [EvCall get_distribution_config [("Id", VStr "D5")];
      EvCall delete_distribution [("Id", VStr "D5"); ("IfMatch", VStr "E5")]]).
Proof.
  apply (disabled_resource_is_removed Samples.disabled_host
           (removing distribution (Some "D5") false) []
           get_distribution_config delete_distribution "DistributionConfig"
           (config_answer "DistributionConfig" Samples.disabled_config "E5")
           Samples.disabled_config (VBool false) (VStr "E5") (VDict []));
    reflexivity.
Defined.

(** ** Disabling a distribution before its removal *)

Lemma dict_get_set_same k v d : dict_get k (dict_set k v d) = Some v.
Proof.
  induction d as [| [k' v'] d IH]; simpl.
  - rewrite String.eqb_refl. reflexivity.
  - destruct (String.eqb k k') eqn:Hk; simpl.
    + rewrite String.eqb_refl. reflexivity.
    + rewrite Hk. exact IH.
Qed.

Lemma dict_get_set_other k k' v d :
  k' <> k -> dict_get k' (dict_set k v d) = dict_get k' d.
Proof.
  intros Hneq. apply String.eqb_neq in Hneq.
  induction d as [| [k0 v0] d IH]; simpl.
  - rewrite Hneq. reflexivity.
  - destruct (String.eqb k k0) eqn:Hk; simpl.
    + apply String.eqb_eq in Hk. subst k0. rewrite Hneq. reflexivity.
    + rewrite IH. reflexivity.
Qed.

(** Whatever comes of it, the first thing [update] does is the call its
    table has for the type, with the Id and the ETag it was given. *)
Lemma update_first_call host module pol rid etag h method config_param :
  update_invocations (type module) = Some (method, config_param) ->
  wp (update host module pol rid etag)
     (fun _ evs =>
        exists rest,
          evs = EvCall method [(config_param, pol); ("Id", rid); ("IfMatch", etag)]
                  :: rest) h.
Proof.
  intros Htable. unfold update. rewrite Htable. apply wp_bind. apply wp_call.
  - intros response _. apply wp_any. intros o e. simpl. eexists. reflexivity.
  - intros e _. eexists. reflexivity.
Qed.

(** X9 -- [disable_distribution] fetches the resource and reads the Enabled
    field of its config. When it is true, the next call is the one the
    update table has for the type, with the resource_id, the ETag of the
    fetched resource as IfMatch and the fetched config in which Enabled is
    False and every other key is as it was; when it is not, no create,
    update or delete call is issued at all. *)
Theorem disable_distribution_disables
  (host : Host) (module : params) (h : history)
  (method : api_method) (config_param dist_key : string)
  (get_result dist config enabled : value) :
  disable_invocations (type module) = Some (method, config_param, dist_key) ->
  client host h method [("Id", param_value (resource_id module))]
  = inr get_result ->
  getitem get_result dist_key = inr dist ->
  getitem dist config_param = inr config ->
  getitem config "Enabled" = inr enabled ->
  (truthy enabled = true ->
   forall etag, getitem get_result "ETag" = inr etag ->
     exists change new_policy rest,
       update_invocations (type module) = Some (change, config_param)
       /\ snd (disable_distribution host module h)
          = EvCall method [("Id", param_value (resource_id module))]
              :: EvCall change
                   [(config_param, new_policy);
                    ("Id", param_value (resource_id module));
                    ("IfMatch", etag)]
              :: rest
       /\ getitem new_policy "Enabled" = inr (VBool false)
       /\ forall k, k <> "Enabled" -> getitem new_policy k = getitem config k)
  /\ (truthy enabled = false ->
      issued_mutation (snd (disable_distribution host module h)) = false).
Proof.
  intros Htable Hcall Hdist Hconfig Henabled. split.
  - intros Htrue etag Hetag.
    destruct config as [| | | | | d]; try discriminate.
    assert (Hchange : exists change,
               update_invocations (type module) = Some (change, config_param)).
    { destruct (type module); try discriminate;
        injection Htable as <- <- <-; eexists; reflexivity. }
    destruct Hchange as [change Hchange].
    assert (Hrun : wp (disable_distribution host module)
                     (fun _ evs =>
                        exists rest,
                          evs = EvCall method
                                  [("Id", param_value (resource_id module))]
                                  :: EvCall change
                                       [(config_param,
                                         VDict (dict_set "Enabled" (VBool false) d));
                                        ("Id", param_value (resource_id module));
                                        ("IfMatch", etag)]
                                  :: rest) h).
    { unfold disable_distribution. rewrite Htable.
      wp_run; rewrite ?app_nil_r in *; same_answers; try congruence.
      - eapply wp_weaken; [apply (update_first_call _ _ _ _ _ _ _ _ Hchange) |].
        intros o e1 [rest ->]. simpl in *.
        match goal with
        | H : inr _ = inr ?x |- _ => injection H as <-
        end.
        destruct o as [[updated result] | msg | e]; eexists; reflexivity.
      - simpl in *. discriminate. }
    destruct Hrun as [rest Hrun].
    exists change, (VDict (dict_set "Enabled" (VBool false) d)), rest.
    split; [exact Hchange |]. split; [exact Hrun |]. split.
    + simpl. rewrite dict_get_set_same. reflexivity.
    + intros k Hk. simpl. rewrite dict_get_set_other by exact Hk. reflexivity.
  - intros Hfalse.
    change (wp (disable_distribution host module)
              (fun _ evs => issued_mutation evs = false) h).
    unfold disable_distribution. rewrite Htable.
    assert (Hmethod : mutating method = false)
      by (destruct (type module); try discriminate;
          injection Htable as <- <- <-; reflexivity).
    wp_run; rewrite ?app_nil_r in *; same_answers; try congruence;
      simpl; rewrite ?Hmethod; try reflexivity.
    apply wp_quiet; [apply wait_for_deployed_status_quiet |].
    intros [[] | msg | e] e1 He1; wp_run; simpl;
      rewrite ?Hmethod, ?issued_mutation_app, ?He1; reflexivity.
Qed.

(** The enabled distribution D1 is updated with Enabled False; the disabled
    distribution D5 is left as it is. *)
Lemma disable_distribution_disables_witness :
  (exists change new_policy rest,
      update_invocations distribution = Some (change, "DistributionConfig")
      /\ snd (disable_distribution Samples.enabled_host
                (removing distribution (Some "D1") true) [])
         = EvCall get_distribution [("Id", VStr "D1")]
             :: EvCall change
                  [("DistributionConfig", new_policy); ("Id", VStr "D1");
                   ("IfMatch", VStr "E1")]
             :: rest
      /\ getitem new_policy "Enabled" = inr (VBool false)
      /\ forall k, k <> "Enabled" -> getitem new_policy k = getitem old_config k)
  /\ issued_mutation
       (snd (disable_distribution Samples.disabled_host
               (removing distribution (Some "D5") true) [])) = false.
Proof.
  split.
  - apply (proj1 (disable_distribution_disables Samples.enabled_host
                    (removing distribution (Some "D1") true) []
                    get_distribution "DistributionConfig" "Distribution"
                    (Samples.fetched "D1" old_config "E1")
                    (VDict [("Id", VStr "D1"); ("Status", VStr "Deployed");
                            ("DistributionConfig", old_config)])
                    old_config (VBool true)
                    eq_refl eq_refl eq_refl eq_refl eq_refl)
             eq_refl (VStr "E1") eq_refl).
  - apply (proj2 (disable_distribution_disables Samples.disabled_host
                    (removing distribution (Some "D5") true) []
                    get_distribution "DistributionConfig" "Distribution"
                    (Samples.fetched "D5" Samples.disabled_config "E5")
                    (VDict [("Id", VStr "D5"); ("Status", VStr "Deployed");
                            ("DistributionConfig", Samples.disabled_config)])
                    Samples.disabled_config (VBool false)
                    eq_refl eq_refl eq_refl eq_refl eq_refl)
             eq_refl).
Defined.

(** ** How long the module sleeps *)

Lemma slept_app e1 e2 : slept (e1 ++ e2) = slept e1 + slept e2.
Proof.
  induction e1 as [| [m args | secs] e1 IH]; simpl; rewrite ?IH; lia.
Qed.

Lemma slept_one_round module args evs :
  slept (one_round module args ++ evs) = 30 + slept evs.
Proof. reflexivity. Qed.

Lemma poll_loop_slept host module args n : forall h,
  0 <= slept (snd (poll_loop host module args n h)) <= 30 * Z.of_nat n
  /\ (fst (poll_loop host module args n h) = Return false ->
      slept (snd (poll_loop host module args n h)) = 30 * Z.of_nat n)
  /\ (fst (poll_loop host module args n h) <> Return false ->
      slept (snd (poll_loop host module args n h)) <= 30 * Z.of_nat (pred n)).
Proof.
  induction n as [| n IH]; intros h.
  - simpl. split; [lia |]. split; [reflexivity | lia].
  - rewrite poll_loop_step.
    destruct (IH (h ++ one_round module args)) as (Hbound & Hfalse & Hother).
    destruct (fst (poll_status host module args h)) as [status | msg | e];
      [destruct (deployed status) |..]; cbn [fst snd];
      rewrite ?slept_one_round;
      change (slept [poll_event module args]) with 0.
    + split; [lia |]. split; [discriminate | lia].
    + split; [lia |]. split.
      * intros Hrun. specialize (Hfalse Hrun). lia.
      * intros Hrun. destruct n as [| n]; [exfalso; apply Hrun; reflexivity |].
        specialize (Hother Hrun). cbn [pred] in *. lia.
    + split; [lia |]. split; [discriminate | lia].
    + split; [lia |]. split; [discriminate | lia].
Qed.

(** X10 -- [wait_for_deployed_status] sleeps at most 30 seconds per retry in
    all, 900 seconds with the default of 30 retries; it has slept exactly
    that long when it returns False, and at least one round less whenever it
    ends otherwise. *)
Theorem wait_for_deployed_status_sleeps
  (host : Host) (module : params) (max_retries : nat) (args : kwargs)
  (h : history) :
  let run := wait_for_deployed_status host module max_retries args h in
  0 <= slept (snd run) <= 30 * Z.of_nat max_retries
  /\ (fst run = Return false -> slept (snd run) = 30 * Z.of_nat max_retries)
  /\ (fst run <> Return false ->
      slept (snd run) <= 30 * Z.of_nat (pred max_retries))
  /\ 30 * Z.of_nat default_max_retries = 900.
Proof.
  unfold wait_for_deployed_status. cbv zeta.
  destruct (poll_loop_slept host module args max_retries h)
    as (Hbound & Hfalse & Hother).
  split; [exact Hbound |]. split; [exact Hfalse |]. split; [exact Hother |].
  reflexivity.
Qed.

(** A distribution that is deployed after two sleeps, and one that never
    is. *)
Lemma wait_for_deployed_status_sleeps_witness :
  slept (snd (wait_for_deployed_status settling_host
                (with_policy distribution None true) 30 [("Id", VStr "D1")] []))
  <= 870
  /\ slept (snd (wait_for_deployed_status none_listed
                   (with_policy distribution None true) 30
                   [("Id", VStr "D1")] []))
     = 900.
Proof.
  split.
  - apply (proj1 (proj2 (proj2 (wait_for_deployed_status_sleeps settling_host
                                  (with_policy distribution None true) 30
                                  [("Id", VStr "D1")] [])))).
    vm_compute. discriminate.
  - apply (proj1 (proj2 (wait_for_deployed_status_sleeps none_listed
                           (with_policy distribution None true) 30
                           [("Id", VStr "D1")] []))).
    vm_compute. reflexivity.
Defined.

(** ** What the module never does *)

Section Never.

Variable host : Host.
Variable p : event -> bool.

Lemma never_ret A (a : A) : never p (ret a).
Proof. intros h. reflexivity. Qed.

Lemma never_fail_json A msg : never p (@fail_json A msg).
Proof. intros h. reflexivity. Qed.

Lemma never_raise A e : never p (@raise A e).
Proof. intros h. reflexivity. Qed.

Lemma never_lift A (r : exn + A) : never p (lift r).
Proof. intros h. destruct r; reflexivity. Qed.

Lemma never_call m args : p (EvCall m args) = false -> never p (call host m args).
Proof.
  intros Hp h. apply wp_call; intros; simpl; rewrite Hp; reflexivity.
Qed.

Lemma never_bind A B (m : M A) (f : A -> M B) :
  never p m -> (forall a, never p (f a)) -> never p (bind m f).
Proof.
  intros Hm Hf h. apply wp_bind. eapply wp_weaken; [apply Hm |].
  intros [a | msg | e] e1 He1; auto.
  eapply wp_weaken; [apply Hf |]. intros o e2 He2.
  rewrite existsb_app, He1, He2. reflexivity.
Qed.

Lemma never_for_each A B (f : A -> M B) xs :
  (forall x, never p (f x)) -> never p (for_each f xs).
Proof.
  intros Hf. induction xs as [| x xs IH]; simpl.
  - apply never_ret.
  - apply never_bind; [apply Hf |]. intros y.
    apply never_bind; [apply IH |]. intros ys. apply never_ret.
Qed.

Lemma never_for_fold A S (f : S -> A -> M S) xs :
  (forall s x, never p (f s x)) -> forall s, never p (for_fold f s xs).
Proof.
  intros Hf. induction xs as [| x xs IH]; intros s; simpl.
  - apply never_ret.
  - apply never_bind; [apply Hf |]. exact IH.
Qed.

Lemma never_load_policy module : never p (load_policy host module).
Proof. intros h. unfold wp. rewrite load_policy_silent. reflexivity. Qed.

End Never.

(** Steps through a computation none of whose events is to satisfy the
    predicate; [waits] deals with the polling loop. *)
Ltac never_step waits :=
  lazymatch goal with
  | |- never _ (ret _) => apply never_ret
  | |- never _ (fail_json _) => apply never_fail_json
  | |- never _ (raise _) => apply never_raise
  | |- never _ (lift _) => apply never_lift
  | |- never _ (call _ _ _) => apply never_call; reflexivity
  | |- never _ (load_policy _ _) => apply never_load_policy
  | |- never _ (wait_for_deployed_status _ _ _ _) => waits
  | |- never _ (bind _ _) => apply never_bind; [| intros ?]
  | |- never _ (for_each _ _) => apply never_for_each; intros ?
  | |- never _ (for_fold _ _ _) => apply never_for_fold; intros ? ?
  | |- never _ (if ?b then _ else _) => destruct b eqn:?
  | |- never _ (match ?x with _ => _ end) => destruct x eqn:?
  | |- never _ (let (_, _) := ?x in _) => destruct x eqn:?
  end.

Ltac never_run waits := repeat (cbv beta iota; never_step waits).

Lemma quiet_never_deleting A (m : M A) : quiet m -> never deleting m.
Proof.
  intros Hm h. eapply wp_weaken; [apply Hm |].
  intros o evs. apply no_mutation_no_deletion.
Qed.

(** X11 -- with state present the module never issues a delete call,
    whatever the client answers and however the invocation ends. *)
Theorem present_never_deletes (host : Host) (module : params) (h : history) :
  state module = present ->
  issued_deletion (snd (main host module h)) = false.
Proof.
  intros Hstate.
  revert h. change (never deleting (main host module)).
  unfold main. rewrite Hstate.
  destruct (HAS_BOTO3 host); simpl; [| apply never_fail_json].
  destruct (boto3_conn host); [apply never_fail_json |].
  unfold creation_setup, creation_step, creation, update,
    return_resource_details.
  destruct (type module) eqn:Htype; simpl;
    unfold get_existing_distributions, get_existing_origin_access_id,
      get_existing_invalidations, get_existing_streaming_distributions.
  all: never_run ltac:(apply quiet_never_deleting;
                       apply wait_for_deployed_status_quiet).
Qed.

(** Two distributions are listed and the second one is updated. *)
Lemma present_never_deletes_witness :
  issued_deletion
    (snd (main equal_then_different (with_policy distribution None false) []))
  = false.
Proof.
  apply (present_never_deletes equal_then_different
           (with_policy distribution None false) []).
  reflexivity.
Defined.

(** X12 -- without wait_for_deployed the module never sleeps, for either
    state and whatever the client answers. *)
Theorem no_wait_never_sleeps (host : Host) (module : params) (h : history) :
  wait_for_deployed module = false ->
  existsb sleeping (snd (main host module h)) = false.
Proof.
  intros Hwait.
  revert h. change (never sleeping (main host module)).
  unfold main.
  destruct (HAS_BOTO3 host); simpl; [| apply never_fail_json].
  destruct (boto3_conn host); [apply never_fail_json |].
  destruct (state module).
  - unfold creation_setup, creation_step, creation, update,
      return_resource_details.
    rewrite Hwait.
    destruct (type module) eqn:Htype; simpl;
      unfold get_existing_distributions, get_existing_origin_access_id,
        get_existing_invalidations, get_existing_streaming_distributions.
    all: never_run fail.
  - unfold removal_setup, removal. rewrite Hwait.
    destruct (type module) eqn:Htype; simpl.
    all: never_run fail.
Qed.

(** The update of a distribution and the removal of a disabled one. *)
Lemma no_wait_never_sleeps_witness :
  existsb sleeping
    (snd (main equal_then_different (with_policy distribution None false) []))
  = false
  /\ existsb sleeping
       (snd (main Samples.disabled_host
               (removing distribution (Some "D5") false) []))
     = false.
Proof.
  split.
  - apply (no_wait_never_sleeps equal_then_different
             (with_policy distribution None false) []).
    reflexivity.
  - apply (no_wait_never_sleeps Samples.disabled_host
             (removing distribution (Some "D5") false) []).
    reflexivity.
Defined.

(** ** A policy that is not a JSON object *)

(** X13 -- with state present, a policy that parses to anything but a JSON
    object never reaches the client: the module ends before any call,
    either failing with the CallerReference message (a string or a list
    that does not hold the word) or in an uncaught TypeError. *)
Theorem non_object_policy_no_calls
  (host : Host) (module : params) (h : history) (pol : value) :
  HAS_BOTO3 host = true ->
  boto3_conn host = None ->
  state module = present ->
  load_policy host module h = (Return pol, []) ->
  (forall d, pol <> VDict d) ->
  snd (main host module h) = []
  /\ (fst (main host module h) = Fail caller_reference_msg
      \/ fst (main host module h) = Raise TypeError).
Proof.
  intros Hboto Hconn Hstate Hload Hpol.
  rewrite main_present by assumption.
  change (wp (creation_setup host module)
            (fun o evs =>
               evs = []
               /\ (o = Fail caller_reference_msg \/ o = Raise TypeError)) h).
  unfold creation_setup. wp_known_step. wp_known_step.
  destruct pol as [| b | z | s | l | d]; try (exfalso; eapply Hpol; reflexivity);
    simpl; wp_run; simpl in *; try discriminate; auto.
Qed.

(** The policy parameter is the text 5. *)
Lemma non_object_policy_no_calls_witness :
  snd (main none_listed (with_text (Some "5") distribution) []) = []
  /\ (fst (main none_listed (with_text (Some "5") distribution) [])
      = Fail caller_reference_msg
      \/ fst (main none_listed (with_text (Some "5") distribution) [])
         = Raise TypeError).
Proof.
  apply (non_object_policy_no_calls none_listed
           (with_text (Some "5") distribution) [] (VInt 5));
    try reflexivity.
  intros d. discriminate.
Defined.

(** ** Creating and updating *)

Lemma creations_app e1 e2 :
  creations (e1 ++ e2) = (creations e1 + creations e2)%nat.
Proof. unfold creations. rewrite filter_app, length_app. reflexivity. Qed.

Lemma creations_cons e evs :
  creations (e :: evs) = ((if creating e then 1 else 0) + creations evs)%nat.
Proof. unfold creations. simpl. destruct (creating e); reflexivity. Qed.

Lemma no_mutation_no_creation evs :
  issued_mutation evs = false ->
  creations evs = 0%nat /\ existsb updating evs = false.
Proof.
  unfold issued_mutation, creations.
  induction evs as [| e evs IH]; simpl; [auto |].
  intros Hevs. apply orb_false_iff in Hevs. destruct Hevs as [He Hevs].
  destruct (IH Hevs) as [Hcreate Hupdate]. rewrite Hupdate.
  destruct e as [m args | secs]; [destruct m |]; simpl in *;
    try discriminate; auto.
Qed.

Section CreateOrUpdate.

Variable host : Host.
Variable module : params.

Hypothesis Htype : type module <> streaming.

(** Takes the facts about creations and updates out of the hypotheses and
    counts. *)
Ltac count_done :=
  repeat match goal with
         | H : issued_mutation _ = false |- _ =>
             apply no_mutation_no_creation in H; destruct H as [? ?]
         end;
  rewrite ?app_nil_r, ?creations_app, ?existsb_app;
  simpl; rewrite ?app_nil_r, ?creations_app, ?existsb_app, ?creations_cons;
  repeat match goal with
         | H : creations _ = _ |- _ => rewrite H
         | H : existsb updating _ = false |- _ => rewrite H
         end;
  simpl; auto; try lia.

Lemma update_creates_nothing pol rid etag h :
  wp (update host module pol rid etag) (fun _ evs => creations evs = 0%nat) h.
Proof.
  unfold update. destruct (type module) eqn:Ht; try congruence; simpl.
  all: repeat (cbv beta iota;
               lazymatch goal with
               | |- wp (wait_for_deployed_status _ _ _ _) _ _ =>
                   apply wp_quiet;
                   [apply wait_for_deployed_status_quiet
                   | intros [[] | ? | ?] ? ?]
               | |- wp _ _ _ => wp_step
               end).
  all: count_done.
Qed.

(** A turn of the loop creates nothing, and when it leaves
    [caller_reference_exists] False it has issued no create, update or
    delete call. *)
Lemma creation_step_creates_nothing pol caller_reference vars item h :
  wp (creation_step host module pol caller_reference vars item)
     (fun o evs =>
        creations evs = 0%nat
        /\ match o with
           | Return vars' =>
               caller_reference_exists vars' = false ->
               issued_mutation evs = false
               /\ caller_reference_exists vars = false
           | _ => True
           end) h.
Proof.
  unfold creation_step.
  repeat (cbv beta iota;
          lazymatch goal with
          | |- wp (return_resource_details _ _ _) _ _ =>
              apply wp_quiet;
              [apply return_resource_details_quiet | intros [? | ? | ?] ? ?]
          | |- wp (update _ _ _ _ _) _ _ =>
              eapply wp_weaken;
              [apply update_creates_nothing | intros [[? ?] | ? | ?] ? ?]
          | |- wp _ _ _ => wp_step
          end).
  all: count_done.
  all: split; auto; simpl; discriminate.
Qed.

Lemma creation_loop_creates_nothing pol caller_reference existing :
  forall vars h,
    wp (for_fold (creation_step host module pol caller_reference) vars existing)
       (fun o evs =>
          creations evs = 0%nat
          /\ match o with
             | Return vars' =>
                 caller_reference_exists vars' = false ->
                 issued_mutation evs = false
                 /\ caller_reference_exists vars = false
             | _ => True
             end) h.
Proof.
  induction existing as [| item existing IH]; intros vars h; simpl.
  - apply wp_ret. auto.
  - apply wp_bind.
    eapply wp_weaken; [apply creation_step_creates_nothing |].
    intros [vars1 | msg | e] e1 [He1 H1]; auto.
    eapply wp_weaken; [apply IH |]. intros o e2 [He2 H2].
    rewrite creations_app, He1, He2. split; [reflexivity |].
    destruct o as [vars2 | msg | e]; auto.
    intros Hnone. destruct (H2 Hnone) as [Hq2 Hnone1].
    destruct (H1 Hnone1) as [Hq1 Hnone0].
    rewrite issued_mutation_app, Hq1, Hq2. auto.
Qed.

Lemma creation_creates_once pol h :
  wp (creation host module pol)
     (fun _ evs => (creations evs <= 1)%nat /\ existsb updating evs = false) h.
Proof.
  unfold creation. destruct (type module) eqn:Ht; try congruence; simpl.
  all: repeat (cbv beta iota;
               lazymatch goal with
               | |- wp (wait_for_deployed_status _ _ _ _) _ _ =>
                   apply wp_quiet;
                   [apply wait_for_deployed_status_quiet
                   | intros [[] | ? | ?] ? ?]
               | |- wp _ _ _ => wp_step
               end).
  all: count_done.
Qed.

Lemma creation_setup_creates_once h :
  wp (creation_setup host module)
     (fun _ evs =>
        (creations evs <= 1)%nat
        /\ (creations evs = 1%nat -> existsb updating evs = false)) h.
Proof.
  unfold creation_setup. apply wp_bind.
  unfold wp at 1. rewrite load_policy_run. simpl.
  destruct (fst (load_policy host module h)) as [pol | msg | e];
    [| split; [apply Nat.le_0_l | discriminate] ..].
  repeat (cbv beta iota;
          lazymatch goal with
          | |- wp (get_config_method _ _ _) _ _ =>
              apply wp_quiet;
              [apply get_config_method_quiet | intros [? | ? | ?] ? ?]
          | |- wp (for_fold _ _ _) _ _ =>
              eapply wp_weaken;
              [apply creation_loop_creates_nothing
              | intros [? | ? | ?] ? [? ?]]
          | |- wp (creation _ _ _) _ _ =>
              eapply wp_weaken;
              [apply creation_creates_once | intros [[? ?] | ? | ?] ? [? ?]]
          | |- wp _ _ _ => wp_step
          end).
  all: try match goal with
           | H : false = false -> _ |- _ => destruct (H eq_refl) as [? _]
           end.
  all: count_done.
  all: split; [lia | intros; try lia; auto].
Qed.

Lemma removal_setup_creates_nothing h :
  wp (removal_setup host module) (fun _ evs => creations evs = 0%nat) h.
Proof.
  pose proof update_creates_nothing as Hupdate.
  unfold removal_setup, removal, disable_distribution.
  destruct (type module) eqn:Ht; try congruence; simpl.
  all: repeat (cbv beta iota;
               lazymatch goal with
               | |- wp (wait_for_deployed_status _ _ _ _) _ _ =>
                   apply wp_quiet;
                   [apply wait_for_deployed_status_quiet
                   | intros [[] | ? | ?] ? ?]
               | |- wp (update _ _ _ _ _) _ _ =>
                   eapply wp_weaken;
                   [apply Hupdate | intros [[? ?] | ? | ?] ? ?]
               | |- wp _ _ _ => wp_step
               end).
  all: count_done.
Qed.

End CreateOrUpdate.

(** X14 -- for every type but streaming, an invocation issues at most one
    create call, and one that issues a create call issues no update call: a
    resource is only created when the loop over the listed resources has
    updated none. *)
Theorem creates_at_most_once (host : Host) (module : params) (h : history) :
  type module <> streaming ->
  (creations (snd (main host module h)) <= 1)%nat
  /\ (creations (snd (main host module h)) = 1%nat ->
      existsb updating (snd (main host module h)) = false).
Proof.
  intros Htype.
  change (wp (main host module)
            (fun _ evs =>
               (creations evs <= 1)%nat
               /\ (creations evs = 1%nat -> existsb updating evs = false)) h).
  unfold main.
  destruct (HAS_BOTO3 host); simpl;
    [| split; [apply Nat.le_0_l | discriminate]].
  destruct (boto3_conn host); [split; [apply Nat.le_0_l | discriminate] |].
  destruct (state module).
  - apply creation_setup_creates_once. exact Htype.
  - eapply wp_weaken; [apply removal_setup_creates_nothing; exact Htype |].
    intros o evs ->. split; [apply Nat.le_0_l | discriminate].
Qed.

(** The creation of a first distribution, and the update of a listed one. *)
Lemma creates_at_most_once_witness :
  existsb updating
    (snd (main none_listed (with_policy distribution None false) [])) = false
  /\ (creations
        (snd (main equal_then_different
                (with_policy distribution None false) [])) <= 1)%nat.
Proof.
  split.
  - apply (proj2 (creates_at_most_once none_listed
                    (with_policy distribution None false) []
                    ltac:(discriminate))).
    reflexivity.
  - apply (proj1 (creates_at_most_once equal_then_different
                    (with_policy distribution None false) []
                    ltac:(discriminate))).
Defined.

(** ** Removal after disabling *)

(** X15 -- with state absent, type distribution and wait_for_deployed, an
    enabled distribution is removed in six steps: it is fetched, updated
    with Enabled False under the fetched ETag, waited for twice (by [update]
    and by [disable_distribution]), its config is fetched again, and, that
    config being disabled, it is deleted under the ETag of this last fetch;
    the module hands back changed=True with the answer of the delete
    call. *)
Theorem enabled_distribution_is_disabled_and_removed
  (host : Host) (module : params) (h : history)
  (get_result dist config enabled etag new_policy updated : value)
  (evs1 evs2 : list event)
  (latest type_config enabled' etag' response : value) :
  let rid := param_value (resource_id module) in
  let fetch := EvCall get_distribution [("Id", rid)] in
  let change :=
    EvCall update_distribution
      [("DistributionConfig", new_policy); ("Id", rid); ("IfMatch", etag)] in
  let fetch_config := EvCall get_distribution_config [("Id", rid)] in
  HAS_BOTO3 host = true ->
  boto3_conn host = None ->
  state module = absent ->
  type module = distribution ->
  supplied (resource_id module) = true ->
  wait_for_deployed module = true ->
  client host h get_distribution [("Id", rid)] = inr get_result ->
  getitem get_result "Distribution" = inr dist ->
  getitem dist "DistributionConfig" = inr config ->
  getitem config "Enabled" = inr enabled ->
  truthy enabled = true ->
  setitem config "Enabled" (VBool false) = inr new_policy ->
  getitem get_result "ETag" = inr etag ->
  client host (h ++ [fetch]) update_distribution
    [("DistributionConfig", new_policy); ("Id", rid); ("IfMatch", etag)]
  = inr updated ->
  wait_for_deployed_status host module default_max_retries [("Id", rid)]
    (h ++ [fetch; change]) = (Return true, evs1) ->
  wait_for_deployed_status host module default_max_retries [("Id", rid)]
    (h ++ [fetch; change] ++ evs1) = (Return true, evs2) ->
  client host (h ++ [fetch; change] ++ evs1 ++ evs2) get_distribution_config
    [("Id", rid)] = inr latest ->
  getitem latest "DistributionConfig" = inr type_config ->
  getitem type_config "Enabled" = inr enabled' ->
  truthy enabled' = false ->
  getitem latest "ETag" = inr etag' ->
  client host (h ++ [fetch; change] ++ evs1 ++ evs2 ++ [fetch_config])
    delete_distribution [("Id", rid); ("IfMatch", etag')] = inr response ->
  main host module h
  = (Return (true, json_roundtrip response),
     [fetch; change] ++ evs1 ++ evs2
       ++ [fetch_config;
           EvCall delete_distribution [("Id", rid); ("IfMatch", etag')]]).
Proof.
  intros rid fetch change fetch_config Hboto Hconn Hstate Htype Hid Hwait
    Hget Hdist Hconfig Henabled Htrue Hset Hetag Hupdate Hwait1 Hwait2
    Hlatest Htype_config Henabled' Hfalse Hetag' Hdelete.
  subst rid fetch change fetch_config.
  rewrite main_absent by assumption.
  apply wp_exact. unfold removal_setup, removal, disable_distribution, update.
  rewrite Htype, Hid, Hwait. simpl.
  repeat (cbv beta iota;
          rewrite <- ?app_assoc; simpl app; rewrite ?app_nil_r;
          lazymatch goal with
          | |- wp (wait_for_deployed_status _ _ _ _) _ _ =>
              eapply wp_known; [eassumption |]
          | |- wp _ _ _ => wp_step
          end;
          rewrite <- ?app_assoc in *; simpl app in *; rewrite ?app_nil_r in *;
          same_answers;
          try (rewrite Htrue in *; discriminate);
          try (rewrite Hfalse in *; discriminate);
          try congruence).
  simpl. rewrite <- ?app_assoc. simpl. split; reflexivity.
Qed.

(** The enabled and deployed distribution D1 is disabled and removed. *)
Lemma enabled_distribution_is_disabled_and_removed_witness :
  main Samples.enabled_host (removing distribution (Some "D1") true) []
  = (Return (true, VDict []),
     [EvCall get_distribution [("Id", VStr "D1")];
      EvCall update_distribution
        [("DistributionConfig",
          VDict [("CallerReference", VStr "ref-1"); ("Comment", VStr "old");
                 ("Enabled", VBool false)]);
         ("Id", VStr "D1"); ("IfMatch", VStr "E1")];
      EvCall get_distribution [("Id", VStr "D1")];
      EvCall get_distribution [("Id", VStr "D1")];
      EvCall get_distribution_config [("Id", VStr "D1")];
      EvCall delete_distribution [("Id", VStr "D1"); ("IfMatch", VStr "E6")]]).
Proof.
  apply (enabled_distribution_is_disabled_and_removed Samples.enabled_host
           (removing distribution (Some "D1") true) []
           (Samples.fetched "D1" old_config "E1")
           (VDict [("Id", VStr "D1"); ("Status", VStr "Deployed");
                   ("DistributionConfig", old_config)])
           old_config (VBool true) (VStr "E1")
           (VDict [("CallerReference", VStr "ref-1"); ("Comment", VStr "old");
                   ("Enabled", VBool false)])
           (Samples.fetched "D1" Samples.disabled_config "E6")
           [EvCall get_distribution [("Id", VStr "D1")]]
           [EvCall get_distribution [("Id", VStr "D1")]]
           (config_answer "DistributionConfig" Samples.disabled_config "E6")
           Samples.disabled_config (VBool false) (VStr "E6") (VDict []));
    reflexivity.
Defined.

(** ** The local variables of [creation_setup] *)

Lemma bound_raise A B e : @bound A (Raise e) -> @bound B (Raise e).
Proof. intros Hb name Heq. apply (Hb name). congruence. Qed.

Lemma getitem_bound v k name : getitem v k <> inl (UnboundLocalError name).
Proof.
  destruct v; simpl; try discriminate. destruct (dict_get k d); discriminate.
Qed.

Lemma setitem_bound v k x name : setitem v k x <> inl (UnboundLocalError name).
Proof. destruct v; discriminate. Qed.

Lemma contains_bound k v name : contains k v <> inl (UnboundLocalError name).
Proof. destruct v; discriminate. Qed.

Lemma iterate_bound v name : iterate v <> inl (UnboundLocalError name).
Proof. destruct v; discriminate. Qed.

Lemma wp_conj A (m : M A) (P Q : outcome A -> list event -> Prop) h :
  wp m P h -> wp m Q h -> wp m (fun o evs => P o evs /\ Q o evs) h.
Proof. unfold wp. auto. Qed.

Section Assigns.

Variable host : Host.
Variable module : params.

Hypothesis Hhost : well_behaved host.

Lemma assigns_ret A (a : A) : assigns (ret a).
Proof. intros h name. discriminate. Qed.

Lemma assigns_fail_json A msg : assigns (@fail_json A msg).
Proof. intros h name. discriminate. Qed.

Lemma assigns_raise A e :
  (forall name, e <> UnboundLocalError name) -> assigns (@raise A e).
Proof. intros He h name Heq. apply (He name). injection Heq. auto. Qed.

Lemma assigns_lift A (r : exn + A) :
  (forall name, r <> inl (UnboundLocalError name)) -> assigns (lift r).
Proof.
  intros Hr h name. destruct r as [e | a]; [| discriminate].
  intros Heq. apply (Hr name). injection Heq as ->. reflexivity.
Qed.

Lemma assigns_sleep secs : assigns (sleep secs).
Proof. intros h name. discriminate. Qed.

Lemma assigns_call m args : assigns (call host m args).
Proof.
  intros h. apply wp_call.
  - intros v _ name. discriminate.
  - intros e He name Heq. apply (Hhost h m args name).
    rewrite He. injection Heq as ->. reflexivity.
Qed.

Lemma assigns_bind A B (m : M A) (f : A -> M B) :
  assigns m -> (forall a, assigns (f a)) -> assigns (bind m f).
Proof.
  intros Hm Hf h. apply wp_bind. eapply wp_weaken; [apply Hm |].
  intros [a | msg | e] e1 Hb.
  - apply Hf.
  - intros name. discriminate.
  - exact (bound_raise _ _ _ Hb).
Qed.

Lemma assigns_for_each A B (f : A -> M B) xs :
  (forall x, assigns (f x)) -> assigns (for_each f xs).
Proof.
  intros Hf. induction xs as [| x xs IH]; simpl.
  - apply assigns_ret.
  - apply assigns_bind; [apply Hf |]. intros y.
    apply assigns_bind; [apply IH |]. intros ys. apply assigns_ret.
Qed.

Lemma assigns_for_fold A S (f : S -> A -> M S) xs :
  (forall s x, assigns (f s x)) -> forall s, assigns (for_fold f s xs).
Proof.
  intros Hf. induction xs as [| x xs IH]; intros s; simpl.
  - apply assigns_ret.
  - apply assigns_bind; [apply Hf |]. exact IH.
Qed.

Lemma assigns_load_policy : assigns (load_policy host module).
Proof.
  intros h name. unfold load_policy.
  destruct (policy module) as [text |]; [| discriminate].
  destruct (supplied (Some text)); [| discriminate].
  destruct (open_read host text) as [json_data | | msg]; try discriminate.
  - destruct (json_loads host json_data); discriminate.
  - destruct (json_loads host text); discriminate.
Qed.

(** Steps through a computation that is to end in no UnboundLocalError. *)
Ltac assigns_step :=
  lazymatch goal with
  | |- assigns (ret _) => apply assigns_ret
  | |- assigns (fail_json _) => apply assigns_fail_json
  | |- assigns (raise _) => apply assigns_raise; discriminate
  | |- assigns (sleep _) => apply assigns_sleep
  | |- assigns (lift (getitem _ _)) =>
      apply assigns_lift; intros ?; apply getitem_bound
  | |- assigns (lift (setitem _ _ _)) =>
      apply assigns_lift; intros ?; apply setitem_bound
  | |- assigns (lift (contains _ _)) =>
      apply assigns_lift; intros ?; apply contains_bound
  | |- assigns (lift (iterate _)) =>
      apply assigns_lift; intros ?; apply iterate_bound
  | |- assigns (call _ _ _) => apply assigns_call
  | |- assigns (load_policy _ _) => apply assigns_load_policy
  | |- assigns (bind _ _) => apply assigns_bind; [| intros ?]
  | |- assigns (for_each _ _) => apply assigns_for_each; intros ?
  | |- assigns (if ?b then _ else _) => destruct b eqn:?
  | |- assigns (match ?x with _ => _ end) => destruct x eqn:?
  | |- assigns (let (_, _) := ?x in _) => destruct x eqn:?
  end.

Ltac assigns_run := repeat (cbv beta iota; assigns_step).

Lemma assigns_wait max_retries args :
  assigns (wait_for_deployed_status host module max_retries args).
Proof.
  unfold wait_for_deployed_status.
  induction max_retries as [| n IH]; simpl.
  - apply assigns_ret.
  - unfold poll_status. assigns_run. exact IH.
Qed.

Lemma assigns_listing : assigns (get_config_method host (type module) module).
Proof.
  destruct (type module); simpl;
    unfold get_existing_distributions, get_existing_origin_access_id,
      get_existing_invalidations, get_existing_streaming_distributions;
    assigns_run.
Qed.

Lemma assigns_update pol rid etag : assigns (update host module pol rid etag).
Proof.
  unfold update. destruct (update_invocations (type module)) as [[method param] |].
  - repeat (cbv beta iota;
            lazymatch goal with
            | |- assigns (wait_for_deployed_status _ _ _ _) => apply assigns_wait
            | |- _ => assigns_step
            end).
  - apply assigns_raise. discriminate.
Qed.

Lemma assigns_creation pol : assigns (creation host module pol).
Proof.
  unfold creation.
  repeat (cbv beta iota;
          lazymatch goal with
          | |- assigns (wait_for_deployed_status _ _ _ _) => apply assigns_wait
          | |- _ => assigns_step
          end).
Qed.

Lemma assigns_creation_step pol caller_reference vars item :
  assigns (creation_step host module pol caller_reference vars item).
Proof.
  unfold creation_step, return_resource_details.
  repeat (cbv beta iota;
          lazymatch goal with
          | |- assigns (update _ _ _ _ _) => apply assigns_update
          | |- _ => assigns_step
          end).
Qed.

(** A turn of the loop assigns [results] when it sets
    [caller_reference_exists]. *)
Lemma creation_step_results pol caller_reference vars item h :
  results_assigned vars ->
  wp (creation_step host module pol caller_reference vars item)
     (fun o _ =>
        match o with
        | Return vars' => results_assigned vars'
        | _ => True
        end) h.
Proof.
  intros Hvars. unfold creation_step.
  repeat (cbv beta iota;
          lazymatch goal with
          | |- wp (return_resource_details _ _ _) _ _ =>
              apply wp_any; intros [? | ? | ?] ?
          | |- wp (update _ _ _ _ _) _ _ =>
              apply wp_any; intros [[? ?] | ? | ?] ?
          | |- wp _ _ _ => wp_step
          end); auto.
  all: intros _; discriminate.
Qed.

Lemma creation_loop_results pol caller_reference existing : forall vars h,
  results_assigned vars ->
  wp (for_fold (creation_step host module pol caller_reference) vars existing)
     (fun o _ =>
        match o with
        | Return vars' => results_assigned vars'
        | _ => True
        end) h.
Proof.
  induction existing as [| item existing IH]; intros vars h Hvars; simpl.
  - apply wp_ret. exact Hvars.
  - apply wp_bind.
    eapply wp_weaken; [apply creation_step_results; exact Hvars |].
    intros [vars1 | msg | e] e1 H1; auto.
Qed.

Lemma assigns_creation_setup : assigns (creation_setup host module).
Proof.
  unfold creation_setup.
  apply assigns_bind; [apply assigns_load_policy | intros pol].
  apply assigns_bind; [assigns_step | intros has_reference].
  apply assigns_bind; [assigns_run | intros caller_reference].
  apply assigns_bind; [apply assigns_listing | intros existing].
  intros h. apply wp_bind.
  eapply wp_weaken;
    [apply wp_conj;
     [apply (assigns_for_fold _ _ _ _
               (assigns_creation_step pol caller_reference))
     | apply creation_loop_results; intros Hexists; discriminate] |].
  intros [vars | msg | e] e1 [Hb Hvars]; cbv beta iota;
    [| intros name; discriminate | exact (bound_raise _ _ _ Hb)].
  apply wp_bind.
  destruct (caller_reference_exists vars) eqn:Hexists.
  - apply wp_ret. cbv beta iota.
    destruct (results vars) as [result |] eqn:Hresults.
    + apply wp_ret. intros name. discriminate.
    + exfalso. exact (Hvars Hexists Hresults).
  - apply wp_bind. eapply wp_weaken; [apply assigns_creation |].
    intros [[created result] | msg | e] e2 Hb2; cbv beta iota;
      [| intros name; discriminate | exact (bound_raise _ _ _ Hb2)].
    apply wp_ret. cbv beta iota. simpl. apply wp_ret. intros name. discriminate.
Qed.

Lemma assigns_removal_setup : assigns (removal_setup host module).
Proof.
  unfold removal_setup, removal, disable_distribution.
  repeat (cbv beta iota;
          lazymatch goal with
          | |- assigns (wait_for_deployed_status _ _ _ _) => apply assigns_wait
          | |- assigns (update _ _ _ _ _) => apply assigns_update
          | |- _ => assigns_step
          end).
Qed.

End Assigns.

(** X16 -- the module never ends in an UnboundLocalError of its own: when
    [creation_setup] returns, its variable results has been assigned, by the
    loop whenever it set caller_reference_exists and by [creation]
    otherwise. The client is taken to raise no such exception itself. *)
Theorem results_always_assigned (host : Host) (module : params) (h : history) :
  well_behaved host ->
  forall name, fst (main host module h) <> Raise (UnboundLocalError name).
Proof.
  intros Hhost.
  change (wp (main host module) (fun o _ => bound o) h).
  unfold main.
  destruct (HAS_BOTO3 host); simpl; [| intros name; discriminate].
  destruct (boto3_conn host); [intros name; discriminate |].
  destruct (state module).
  - apply assigns_creation_setup. exact Hhost.
  - apply assigns_removal_setup. exact Hhost.
Qed.

(** Two distributions are listed, one is updated. *)
Lemma results_always_assigned_witness :
  well_behaved equal_then_different
  /\ forall name,
       fst (main equal_then_different (with_policy distribution None false) [])
       <> Raise (UnboundLocalError name).
Proof.
  assert (Hhost : well_behaved equal_then_different).
  { intros h m args name. simpl. unfold scripted.
    destruct (find _ _); discriminate. }
  split; [exact Hhost |].
  apply (results_always_assigned equal_then_different
           (with_policy distribution None false) [] Hhost).
Defined.
